(** * Wallet ledger, escrow state machine, payout router and webhook retry

    A shallow embedding of the accounting core of the payments API:

    - [WalletModel]        the Wallet schema methods (models/Wallet.js)
    - [TransactionModel]   the Transaction schema and its pre-save hook
    - [EscrowModel]        the Escrow schema methods (models/Escrow.js)
    - [EscrowController], [WalletController], [PayoutController],
      [CollectionsController]
                           the request handlers, as functions on the database
    - [WebhookService]     the retry loop of [sendWebhook]
    - [TransactionMethods], [PayoutRetry], [BulkPayouts], [WebhooksController],
      [PayoutCallbacks], [CollectionsCancel], [WebhookBatch]
                           [scheduleRetry], [retryPayout], [createBulkPayouts],
                           the bank and M-Pesa confirmations and callbacks,
                           [cancelCollection] and [sendBatchWebhooks]

    Modelling conventions.

    - A JavaScript [Number] holding money is an exact rational ([Q]); sums,
      differences and percentage fees are exact and compared with [==].
      Module [Binary64] re-runs the fee computations of the scenarios on
      IEEE-754 doubles and finds the same values.
    - The document store is three finite maps keyed by the documents' ids.
      [findOne] is a lookup that yields an in-memory copy; [save] writes back
      the paths whose value differs from the copy's last saved snapshot, which
      is how the ODM tracks dirty paths; a path set by the constructor of a
      new document counts as modified.  Persistence itself always succeeds:
      schema validators, unique indexes and I/O failures are not modelled.
    - [uuidv4()] values are arguments of the handlers; dates and timeline
      stamps are dropped; webhook notifications sent from the controllers are
      best-effort ([try]/[catch] around them) and do not touch the database.
    - An exception ([throw new Error(msg)]) is the [Throw msg] result; the
      handlers' outer [catch] turns it into a 500 response and keeps whatever
      had been saved before the throw. *)

From Stdlib Require Import QArith Lqa Lia ZArith String List Bool Floats.
From stdpp Require Import gmap strings pretty.
Import ListNotations.

Open Scope string_scope.

(** ** Results of code that may throw *)

Inductive result (A : Type) : Type :=
| Ok (a : A)
| Throw (msg : string).
Arguments Ok {A} a.
Arguments Throw {A} msg.

(** ** JavaScript numbers and truthiness *)

Module JS.

(** [x < y] on numbers. *)
Definition ltb (x y : Q) : bool := negb (Qle_bool y x).

(** [x >= y] on numbers. *)
Definition geb (x y : Q) : bool := Qle_bool y x.

(** [!!s] for an optional string: [undefined] and the empty string are
    falsy, every other string is truthy. *)
Definition truthy (s : option string) : bool :=
  match s with
  | None => false
  | Some EmptyString => false
  | Some (String _ _) => true
  end.

End JS.

(** ** models/Wallet.js *)

Module WalletModel.

Record Balances : Type := mkBalances {
  available : Q;
  locked : Q;
  pending : Q
}.

Record Wallet : Type := mkWallet {
  wallet_id : string;
  owner_type : string;
  owner_id : string;
  currency : string;
  balances : Balances
}.

Definition set_balances (w : Wallet) (b : Balances) : Wallet :=
  mkWallet (wallet_id w) (owner_type w) (owner_id w) (currency w) b.

Definition hasSufficientFunds (w : Wallet) (amount : Q) (includeLocked : bool) : bool :=
  if includeLocked
  then JS.geb (available (balances w) + locked (balances w)) amount
  else JS.geb (available (balances w)) amount.

Definition lockFunds (w : Wallet) (amount : Q) : result Wallet :=
  if negb (hasSufficientFunds w amount false)
  then Throw "Insufficient funds"
  else Ok (set_balances w
             (mkBalances (available (balances w) - amount)
                         (locked (balances w) + amount)
                         (pending (balances w)))).

Definition unlockFunds (w : Wallet) (amount : Q) : result Wallet :=
  if JS.ltb (locked (balances w)) amount
  then Throw "Insufficient locked funds"
  else Ok (set_balances w
             (mkBalances (available (balances w) + amount)
                         (locked (balances w) - amount)
                         (pending (balances w)))).

Definition releaseFunds (w : Wallet) (amount : Q) : result Wallet :=
  if JS.ltb (locked (balances w)) amount
  then Throw "Insufficient locked funds"
  else Ok (set_balances w
             (mkBalances (available (balances w) + amount)
                         (locked (balances w) - amount)
                         (pending (balances w)))).

Definition deductFunds (w : Wallet) (amount : Q) : result Wallet :=
  if JS.ltb (available (balances w)) amount
  then Throw "Insufficient available funds"
  else Ok (set_balances w
             (mkBalances (available (balances w) - amount)
                         (locked (balances w))
                         (pending (balances w)))).

Definition addFunds (w : Wallet) (amount : Q) : result Wallet :=
  Ok (set_balances w
        (mkBalances (available (balances w) + amount)
                    (locked (balances w))
                    (pending (balances w)))).

(** [doc.save()]: the balance paths that differ from the snapshot taken at
    the last load or save are written to the stored record. *)
Definition write_path (snapshot now stored : Q) : Q :=
  if Qeq_bool snapshot now then stored else now.

Definition save (snapshot doc : Wallet) (db : gmap string Wallet) : gmap string Wallet :=
  alter (fun stored =>
           set_balances stored
             (mkBalances
                (write_path (available (balances snapshot)) (available (balances doc))
                            (available (balances stored)))
                (write_path (locked (balances snapshot)) (locked (balances doc))
                            (locked (balances stored)))
                (write_path (pending (balances snapshot)) (pending (balances doc))
                            (pending (balances stored)))))
        (wallet_id doc) db.

(** [await doc.method(amount)]: run the method on the in-memory document
    and persist it. *)
Definition run (method : Wallet -> Q -> result Wallet) (doc : Wallet) (amount : Q)
           (db : gmap string Wallet) : result (Wallet * gmap string Wallet) :=
  match method doc amount with
  | Throw msg => Throw msg
  | Ok doc' => Ok (doc', save doc doc' db)
  end.

End WalletModel.

(** ** models/Transaction.js *)

Module TransactionModel.

Record Fees : Type := mkFees {
  processing_fee : Q;
  platform_fee : Q;
  total_fee : Q
}.

Record Transaction : Type := mkTransaction {
  transaction_id : string;
  type : string;
  status : string;
  amount : Q;
  fees : Fees;
  net_amount : Q;
  source_wallet_id : option string;
  destination_wallet_id : option string;
  user_id : option string;
  failure_reason : option string;
  retry_count : nat
}.

(** The [fees] object handed to [new Transaction({...})]: a sub-field that
    is absent takes the schema default 0. *)
Record FeesInput : Type := mkFeesInput {
  in_processing_fee : option Q;
  in_platform_fee : option Q;
  in_total_fee : option Q
}.

Definition default0 (x : option Q) : Q :=
  match x with Some q => q | None => 0%Q end.

Definition fees_of_input (f : FeesInput) : Fees :=
  mkFees (default0 (in_processing_fee f))
         (default0 (in_platform_fee f))
         (default0 (in_total_fee f)).

Definition any_given (f : FeesInput) : bool :=
  match in_processing_fee f, in_platform_fee f, in_total_fee f with
  | None, None, None => false
  | _, _, _ => true
  end.

(** An in-memory document: the data and what [this.isModified('fees')]
    answers.  A path set by the constructor of a new document counts as
    modified; saving clears the mark. *)
Record Doc : Type := mkDoc {
  data : Transaction;
  fees_modified : bool
}.

Definition construct (id ty st : string) (amt : Q) (f : FeesInput) (net : Q)
           (src dst usr : option string) : Doc :=
  mkDoc (mkTransaction id ty st amt (fees_of_input f) net src dst usr None 0)
        (any_given f).

Definition set_status (d : Doc) (st : string) : Doc :=
  let t := data d in
  mkDoc (mkTransaction (transaction_id t) (type t) st (amount t) (fees t)
                       (net_amount t) (source_wallet_id t) (destination_wallet_id t)
                       (user_id t) (failure_reason t) (retry_count t))
        (fees_modified d).

Definition set_failure_reason (d : Doc) (reason : string) : Doc :=
  let t := data d in
  mkDoc (mkTransaction (transaction_id t) (type t) (status t) (amount t) (fees t)
                       (net_amount t) (source_wallet_id t) (destination_wallet_id t)
                       (user_id t) (Some reason) (retry_count t))
        (fees_modified d).

(** [transactionSchema.pre('save', ...)]. *)
Definition pre_save (isModified_fees : bool) (t : Transaction) : Transaction :=
  if isModified_fees then
    let total := (processing_fee (fees t) + platform_fee (fees t))%Q in
    mkTransaction (transaction_id t) (type t) (status t) (amount t)
                  (mkFees (processing_fee (fees t)) (platform_fee (fees t)) total)
                  (amount t - total)
                  (source_wallet_id t) (destination_wallet_id t)
                  (user_id t) (failure_reason t) (retry_count t)
  else t.

(** [await doc.save()]: run the hook, store the record, clear the marks. *)
Definition save (d : Doc) (db : gmap string Transaction) : Doc * gmap string Transaction :=
  let t := pre_save (fees_modified d) (data d) in
  (mkDoc t false, <[transaction_id t := t]> db).

(** [Transaction.findOne({ transaction_id })]. *)
Definition load (t : Transaction) : Doc := mkDoc t false.

End TransactionModel.

(** ** models/Escrow.js *)

Module EscrowModel.

(** An element of [conditions]; [cond_id] stands for the sub-document's
    [_id], which the ODM assigns on creation. *)
Record Condition : Type := mkCondition {
  cond_id : nat;
  cond_type : string;
  description : string;
  fulfilled : bool;
  fulfilled_by : option string
}.

Record Party : Type := mkParty {
  user_id : string;
  wallet_id : string
}.

Record ReleaseSettings : Type := mkReleaseSettings {
  auto_release : bool;
  auto_release_date : option string;
  require_all_conditions : bool
}.

Record EscrowFees : Type := mkEscrowFees {
  escrow_fee : Q;
  processing_fee : Q;
  total_fee : Q
}.

Record Dispute : Type := mkDispute {
  dispute_id : string;
  raised_by : string;
  reason : string;
  dispute_description : string;
  dispute_status : string
}.

Record Escrow : Type := mkEscrow {
  escrow_id : string;
  transaction_id : string;
  amount : Q;
  currency : string;
  payer : Party;
  payee : Party;
  conditions : list Condition;
  status : string;
  release_settings : ReleaseSettings;
  fees : EscrowFees;
  disputes : list Dispute
}.

Definition set_status (e : Escrow) (st : string) : Escrow :=
  mkEscrow (escrow_id e) (transaction_id e) (amount e) (currency e) (payer e) (payee e)
           (conditions e) st (release_settings e) (fees e) (disputes e).

Definition set_conditions (e : Escrow) (cs : list Condition) : Escrow :=
  mkEscrow (escrow_id e) (transaction_id e) (amount e) (currency e) (payer e) (payee e)
           cs (status e) (release_settings e) (fees e) (disputes e).

Definition set_disputes (e : Escrow) (ds : list Dispute) : Escrow :=
  mkEscrow (escrow_id e) (transaction_id e) (amount e) (currency e) (payer e) (payee e)
           (conditions e) (status e) (release_settings e) (fees e) ds.

(** The virtual [allConditionsFulfilled]. *)
Definition allConditionsFulfilled (e : Escrow) : bool :=
  if Nat.eqb (length (conditions e)) 0 then true
  else forallb fulfilled (conditions e).

Definition fund (e : Escrow) : Escrow := set_status e "funded".

Definition activate (e : Escrow) : Escrow := set_status e "active".

Definition release (e : Escrow) : Escrow := set_status e "released".

Definition refund (e : Escrow) (why : string) : Escrow := set_status e "refunded".

(** [this.conditions.id(conditionId)]. *)
Definition find_condition (cs : list Condition) (conditionId : nat) : option Condition :=
  find (fun c => Nat.eqb (cond_id c) conditionId) cs.

(** The in-place update of the condition found by [find_condition]: the
    first one carrying the id. *)
Fixpoint mark_fulfilled (cs : list Condition) (conditionId : nat) (fulfilledBy : string)
  : list Condition :=
  match cs with
  | [] => []
  | c :: rest =>
      if Nat.eqb (cond_id c) conditionId
      then mkCondition (cond_id c) (cond_type c) (description c) true (Some fulfilledBy)
           :: rest
      else c :: mark_fulfilled rest conditionId fulfilledBy
  end.

Definition fulfillCondition (e : Escrow) (conditionId : nat) (fulfilledBy : string)
  : result Escrow :=
  match find_condition (conditions e) conditionId with
  | None => Throw "Condition not found"
  | Some _ =>
      let e' := set_conditions e (mark_fulfilled (conditions e) conditionId fulfilledBy) in
      if allConditionsFulfilled e' && auto_release (release_settings e')
      then Ok (release e')
      else Ok e'
  end.


Definition raiseDispute (e : Escrow) (uuid raisedBy why descr : string) : Escrow :=
  set_status
    (set_disputes e (disputes e ++ [mkDispute uuid raisedBy why descr "open"]))
    "disputed".

(** [await escrow.save()]. *)
Definition save (e : Escrow) (db : gmap string Escrow) : gmap string Escrow :=
  <[escrow_id e := e]> db.

End EscrowModel.

(** ** The database and HTTP responses *)

Record Db : Type := mkDb {
  wallets : gmap string WalletModel.Wallet;
  transactions : gmap string TransactionModel.Transaction;
  escrows : gmap string EscrowModel.Escrow
}.

Definition set_wallets (db : Db) (ws : gmap string WalletModel.Wallet) : Db :=
  mkDb ws (transactions db) (escrows db).

Definition set_transactions (db : Db) (ts : gmap string TransactionModel.Transaction) : Db :=
  mkDb (wallets db) ts (escrows db).

Definition set_escrows (db : Db) (es : gmap string EscrowModel.Escrow) : Db :=
  mkDb (wallets db) (transactions db) es.

(** [res.status(code).json({ error | message })]. *)
Record Response : Type := mkResponse {
  code : nat;
  body : string
}.

(** [await wallet.method(amount)] against the database. *)
Definition wallet_call (method : WalletModel.Wallet -> Q -> result WalletModel.Wallet)
           (doc : WalletModel.Wallet) (amount : Q) (db : Db)
  : result (WalletModel.Wallet * Db) :=
  match WalletModel.run method doc amount (wallets db) with
  | Throw msg => Throw msg
  | Ok (doc', ws) => Ok (doc', set_wallets db ws)
  end.

(** [await transaction.save()] against the database. *)
Definition transaction_save (d : TransactionModel.Doc) (db : Db) : TransactionModel.Doc * Db :=
  let '(d', ts) := TransactionModel.save d (transactions db) in
  (d', set_transactions db ts).

(** [await escrow.save()] against the database. *)
Definition escrow_save (e : EscrowModel.Escrow) (db : Db) : Db :=
  set_escrows db (EscrowModel.save e (escrows db)).

(** [userWalletIds.includes(id)] where [userWalletIds] are the ids of the
    wallets found by [Wallet.find({ owner_id: userId })]. *)
Definition owns_wallet (db : Db) (userId id : string) : bool :=
  match wallets db !! id with
  | Some w => String.eqb (WalletModel.owner_id w) userId
  | None => false
  end.

(** ** controllers/escrowController.js *)

Module EscrowController.

Module W := WalletModel.
Module T := TransactionModel.
Module E := EscrowModel.

(** An element of [req.body.conditions]. *)
Record ConditionInput : Type := mkConditionInput {
  in_type : string;
  in_description : string
}.

(** [req.body] of [POST /escrow/create]; [description], [reference] and
    [webhook_url] only feed metadata and are left out. *)
Record CreateEscrowBody : Type := mkCreateEscrowBody {
  amount : Q;
  currency : option string;
  payer_wallet_id : string;
  payee_wallet_id : string;
  conditions : list ConditionInput;
  auto_release_date : option string
}.

Definition currency_or_KES (c : option string) : string :=
  match c with Some s => s | None => "KES" end.

(** [conditions.map(condition => ({type, description, fulfilled: false}))],
    the i-th sub-document receiving [_id] i. *)
Definition new_conditions (cs : list ConditionInput) : list E.Condition :=
  map (fun ic => E.mkCondition (fst ic) (in_type (snd ic)) (in_description (snd ic)) false None)
      (combine (seq 0 (length cs)) cs).

Definition createEscrow (db : Db) (userId uuid_escrow uuid_txn : string)
           (b : CreateEscrowBody) : Response * Db :=
  let cur := currency_or_KES (currency b) in
  let escrow_id := "esc_" ++ uuid_escrow in
  match wallets db !! payer_wallet_id b, wallets db !! payee_wallet_id b with
  | Some payerWallet, Some payeeWallet =>
      if negb (W.hasSufficientFunds payerWallet (amount b) false)
      then (mkResponse 400 "Insufficient funds in payer wallet", db)
      else
        let escrow_fee := (amount b * 0.02)%Q in
        let processing_fee := 0%Q in
        let total_fee := (escrow_fee + processing_fee)%Q in
        let transaction :=
          T.construct ("txn_" ++ uuid_txn) "escrow_hold" "pending" (amount b)
            (T.mkFeesInput (Some processing_fee) (Some escrow_fee) (Some total_fee))
            (amount b - total_fee)%Q
            (Some (payer_wallet_id b)) (Some escrow_id) (Some userId) in
        let '(transaction, db1) := transaction_save transaction db in
        match wallet_call W.lockFunds payerWallet (amount b) db1 with
        | Throw _ => (mkResponse 500 "Failed to create escrow", db1)
        | Ok (_, db2) =>
            let escrow :=
              E.mkEscrow escrow_id (T.transaction_id (T.data transaction)) (amount b) cur
                (E.mkParty (W.owner_id payerWallet) (payer_wallet_id b))
                (E.mkParty (W.owner_id payeeWallet) (payee_wallet_id b))
                (new_conditions (conditions b))
                "pending"
                (E.mkReleaseSettings (JS.truthy (auto_release_date b))
                                     (if JS.truthy (auto_release_date b)
                                      then auto_release_date b else None)
                                     true)
                (E.mkEscrowFees escrow_fee processing_fee total_fee)
                [] in
            let db3 := escrow_save escrow db2 in
            let transaction := T.set_status transaction "completed" in
            let '(_, db4) := transaction_save transaction db3 in
            let escrow := E.fund escrow in
            let db5 := escrow_save escrow db4 in
            let escrow := E.activate escrow in
            let db6 := escrow_save escrow db5 in
            (mkResponse 201 "Escrow created successfully", db6)
        end
  | _, _ => (mkResponse 404 "One or both wallets not found", db)
  end.

(** [POST /escrow/:escrow_id/conditions/:condition_id/fulfill], for a body
    that carries [fulfilled_by] and no [evidence]. *)
Definition fulfillCondition (db : Db) (userId escrow_id : string) (condition_id : nat)
           (fulfilled_by : string) : Response * Db :=
  match escrows db !! escrow_id with
  | None => (mkResponse 404 "Escrow not found", db)
  | Some escrow =>
      if negb (owns_wallet db userId (E.wallet_id (E.payee escrow)))
      then (mkResponse 403 "Access denied", db)
      else if negb (String.eqb (E.status escrow) "active")
      then (mkResponse 400 "Escrow is not active", db)
      else
        match E.fulfillCondition escrow condition_id fulfilled_by with
        | Throw _ => (mkResponse 500 "Failed to fulfill condition", db)
        | Ok escrow' =>
            (mkResponse 200 "Condition fulfilled successfully", escrow_save escrow' db)
        end
  end.

(** The [fees] of an escrow handed to [new Transaction]: the Transaction
    schema knows [processing_fee], [platform_fee] and [total_fee]; the
    escrow's [escrow_fee] is not a path of it and [platform_fee] is absent. *)
Definition fees_from_escrow (f : E.EscrowFees) : T.FeesInput :=
  T.mkFeesInput (Some (E.processing_fee f)) None (Some (E.total_fee f)).

Definition releaseEscrow (db : Db) (userId uuid_rel escrow_id : string) : Response * Db :=
  match escrows db !! escrow_id with
  | None => (mkResponse 404 "Escrow not found", db)
  | Some escrow =>
      if negb (owns_wallet db userId (E.wallet_id (E.payer escrow)))
      then (mkResponse 403 "Access denied", db)
      else if negb (String.eqb (E.status escrow) "active")
      then (mkResponse 400 "Escrow is not active", db)
      else if negb (E.allConditionsFulfilled escrow)
              && E.require_all_conditions (E.release_settings escrow)
      then (mkResponse 400 "Not all conditions fulfilled", db)
      else
        match wallets db !! E.wallet_id (E.payee escrow) with
        | None => (mkResponse 404 "Payee wallet not found", db)
        | Some payeeWallet =>
            match transactions db !! E.transaction_id escrow with
            | None => (mkResponse 404 "Original transaction not found", db)
            | Some transaction =>
                match wallets db !! E.wallet_id (E.payer escrow) with
                | None => (mkResponse 404 "Payer wallet not found", db)
                | Some payerWallet =>
                    let escrow := E.release escrow in
                    let db1 := escrow_save escrow db in
                    let failed := mkResponse 500 "Failed to release escrow funds" in
                    match wallet_call W.unlockFunds payerWallet (E.amount escrow) db1 with
                    | Throw _ => (failed, db1)
                    | Ok (payerWallet, db2) =>
                        match wallet_call W.deductFunds payerWallet (E.amount escrow) db2 with
                        | Throw _ => (failed, db2)
                        | Ok (_, db3) =>
                            match wallet_call W.addFunds payeeWallet
                                    (T.net_amount transaction) db3 with
                            | Throw _ => (failed, db3)
                            | Ok (_, db4) =>
                                let releaseTransaction :=
                                  T.construct ("rel_" ++ uuid_rel) "escrow_release" "completed"
                                    (E.amount escrow)
                                    (fees_from_escrow (E.fees escrow))
                                    (T.net_amount transaction)
                                    (Some (E.wallet_id (E.payer escrow)))
                                    (Some (E.wallet_id (E.payee escrow)))
                                    (Some userId) in
                                let '(_, db5) := transaction_save releaseTransaction db4 in
                                (mkResponse 200 "Escrow funds released successfully", db5)
                            end
                        end
                    end
                end
            end
        end
  end.

Definition refundEscrow (db : Db) (userId uuid_ref escrow_id why : string) : Response * Db :=
  match escrows db !! escrow_id with
  | None => (mkResponse 404 "Escrow not found", db)
  | Some escrow =>
      if negb (owns_wallet db userId (E.wallet_id (E.payer escrow)))
      then (mkResponse 403 "Access denied", db)
      else if negb (String.eqb (E.status escrow) "active"
                    || String.eqb (E.status escrow) "disputed")
      then (mkResponse 400 "Escrow cannot be refunded", db)
      else
        match wallets db !! E.wallet_id (E.payer escrow) with
        | None => (mkResponse 404 "Payer wallet not found", db)
        | Some payerWallet =>
            match transactions db !! E.transaction_id escrow with
            | None => (mkResponse 404 "Original transaction not found", db)
            | Some transaction =>
                let escrow := E.refund escrow why in
                let db1 := escrow_save escrow db in
                let failed := mkResponse 500 "Failed to refund escrow" in
                match wallet_call W.unlockFunds payerWallet (E.amount escrow) db1 with
                | Throw _ => (failed, db1)
                | Ok (payerWallet, db2) =>
                    match wallet_call W.addFunds payerWallet (T.amount transaction) db2 with
                    | Throw _ => (failed, db2)
                    | Ok (_, db3) =>
                        let refundTransaction :=
                          T.construct ("ref_" ++ uuid_ref) "refund" "completed"
                            (E.amount escrow)
                            (T.mkFeesInput (Some 0%Q) (Some 0%Q) (Some 0%Q))
                            (E.amount escrow)
                            (Some (E.escrow_id escrow))
                            (Some (E.wallet_id (E.payer escrow)))
                            (Some userId) in
                        let '(_, db4) := transaction_save refundTransaction db3 in
                        (mkResponse 200 "Escrow refunded successfully", db4)
                    end
                end
            end
        end
  end.

Definition raiseDispute (db : Db) (userId uuid_dispute escrow_id why descr : string)
  : Response * Db :=
  match escrows db !! escrow_id with
  | None => (mkResponse 404 "Escrow not found", db)
  | Some escrow =>
      if negb (owns_wallet db userId (E.wallet_id (E.payer escrow))
               || owns_wallet db userId (E.wallet_id (E.payee escrow)))
      then (mkResponse 403 "Access denied", db)
      else if negb (String.eqb (E.status escrow) "active")
      then (mkResponse 400 "Escrow is not active", db)
      else
        let escrow := E.raiseDispute escrow uuid_dispute userId why descr in
        (mkResponse 200 "Dispute raised successfully", escrow_save escrow db)
  end.

End EscrowController.

(** ** The wallet controller: fundWallet, withdrawFromWallet, transferFunds *)

Module WalletController.

Module W := WalletModel.
Module T := TransactionModel.

(** The destructuring default [currency = 'KES']: only [undefined] gives KES. *)
Definition currency_or_KES (c : option string) : string :=
  match c with Some s => s | None => "KES" end.

(** [currency || 'KES']: any falsy value, not only [undefined], gives KES. *)
Definition truthy_or_KES (c : option string) : string :=
  match c with
  | Some s => if JS.truthy c then s else "KES"
  | None => "KES"
  end.

(** [Wallet.findOne({ wallet_id, owner_id })]. *)
Definition find_owned (db : Db) (wallet_id userId : string) : option W.Wallet :=
  match wallets db !! wallet_id with
  | Some w => if String.eqb (W.owner_id w) userId then Some w else None
  | None => None
  end.

(** [Wallet.findOne({ owner_id, currency })]: a query that is not on the
    key; the first match in the store's iteration order is returned. *)
Definition find_by_owner_currency (db : Db) (userId cur : string) : option W.Wallet :=
  match find (fun kv => String.eqb (W.owner_id (snd kv)) userId
                        && String.eqb (W.currency (snd kv)) cur)
             (map_to_list (wallets db)) with
  | Some kv => Some (snd kv)
  | None => None
  end.

(** [POST /wallets/:wallet_id/fund].  [mpesa] is the outcome of the call to
    the M-Pesa collaborator: the [status] of its response, or the message
    of the error it throws. *)
Definition fundWallet (db : Db) (userId uuid wallet_id : string) (amount : Q)
           (currency : option string) (payment_method : string) (mpesa : result string)
  : Response * Db :=
  let cur := currency_or_KES currency in
  match find_owned db wallet_id userId with
  | None => (mkResponse 404 "Wallet not found", db)
  | Some wallet =>
      if negb (String.eqb (W.currency wallet) cur)
      then (mkResponse 400 "Currency mismatch", db)
      else
        let processing_fee := (amount * 0.015)%Q in
        let platform_fee := 0%Q in
        let total_fee := (processing_fee + platform_fee)%Q in
        let total_amount := (amount + total_fee)%Q in
        let net_amount := amount in
        let transaction :=
          T.construct ("fund_" ++ uuid) "wallet_funding" "pending" total_amount
            (T.mkFeesInput (Some processing_fee) (Some platform_fee) (Some total_fee))
            net_amount None (Some wallet_id) (Some userId) in
        let '(transaction, db1) := transaction_save transaction db in
        let paymentResponse : result string :=
          if String.eqb payment_method "mpesa" then mpesa
          else if String.eqb payment_method "card" then Ok "completed"
          else if String.eqb payment_method "bank" then Ok "pending"
          else Throw "Unsupported payment method" in
        match paymentResponse with
        | Ok st =>
            if String.eqb st "completed" then
              let transaction := T.set_status transaction "completed" in
              match wallet_call W.addFunds wallet net_amount db1 with
              | Throw msg =>
                  let transaction := T.set_failure_reason (T.set_status transaction "failed") msg in
                  let '(_, db2) := transaction_save transaction db1 in
                  (mkResponse 400 "Payment processing failed", db2)
              | Ok (_, db2) =>
                  let '(_, db3) := transaction_save transaction db2 in
                  (mkResponse 201 "Wallet funding initiated", db3)
              end
            else
              let transaction := T.set_status transaction "processing" in
              let '(_, db2) := transaction_save transaction db1 in
              (mkResponse 201 "Wallet funding initiated", db2)
        | Throw msg =>
            let transaction := T.set_failure_reason (T.set_status transaction "failed") msg in
            let '(_, db2) := transaction_save transaction db1 in
            (mkResponse 400 "Payment processing failed", db2)
        end
  end.

(** [POST /wallets/:wallet_id/withdraw]. *)
Definition withdrawFromWallet (db : Db) (userId uuid wallet_id : string) (amount : Q)
           (payment_method : string) : Response * Db :=
  match find_owned db wallet_id userId with
  | None => (mkResponse 404 "Wallet not found", db)
  | Some wallet =>
      if negb (W.hasSufficientFunds wallet amount false)
      then (mkResponse 400 "Insufficient balance", db)
      else
        let processing_fee := (amount * 0.015)%Q in
        let platform_fee := 0%Q in
        let total_fee := (processing_fee + platform_fee)%Q in
        let total_amount := (amount + total_fee)%Q in
        let net_amount := amount in
        let transaction :=
          T.construct ("withdraw_" ++ uuid) "wallet_withdrawal" "pending" total_amount
            (T.mkFeesInput (Some processing_fee) (Some platform_fee) (Some total_fee))
            net_amount (Some wallet_id) None (Some userId) in
        let '(transaction, db1) := transaction_save transaction db in
        match wallet_call W.deductFunds wallet total_amount db1 with
        | Throw _ => (mkResponse 500 "Failed to process withdrawal", db1)
        | Ok (_, db2) =>
            let transaction := T.set_status transaction "processing" in
            let '(_, db3) := transaction_save transaction db2 in
            (mkResponse 201 "Withdrawal initiated", db3)
        end
  end.

(** [POST /wallets/transfer]. *)
Definition transferFunds (db : Db) (userId uuid : string) (amount : Q)
           (recipient_wallet_id : string) (currency : option string) : Response * Db :=
  match find_by_owner_currency db userId (truthy_or_KES currency) with
  | None => (mkResponse 404 "Source wallet not found", db)
  | Some sourceWallet =>
      match wallets db !! recipient_wallet_id with
      | None => (mkResponse 404 "Recipient wallet not found", db)
      | Some recipientWallet =>
          if negb (String.eqb (W.currency sourceWallet) (W.currency recipientWallet))
          then (mkResponse 400 "Currency mismatch between wallets", db)
          else if negb (W.hasSufficientFunds sourceWallet amount false)
          then (mkResponse 400 "Insufficient balance", db)
          else
            let transfer_fee := (amount * 0.005)%Q in
            let total_amount := (amount + transfer_fee)%Q in
            let net_amount := amount in
            let transaction :=
              T.construct ("transfer_" ++ uuid) "wallet_transfer" "completed" total_amount
                (T.mkFeesInput (Some 0%Q) (Some transfer_fee) (Some transfer_fee))
                net_amount (Some (W.wallet_id sourceWallet)) (Some recipient_wallet_id)
                (Some userId) in
            let '(_, db1) := transaction_save transaction db in
            let failed := mkResponse 500 "Failed to process transfer" in
            match wallet_call W.deductFunds sourceWallet total_amount db1 with
            | Throw _ => (failed, db1)
            | Ok (_, db2) =>
                match wallet_call W.addFunds recipientWallet net_amount db2 with
                | Throw _ => (failed, db2)
                | Ok (_, db3) => (mkResponse 201 "Transfer completed successfully", db3)
                end
            end
      end
  end.

End WalletController.

(** ** controllers/collectionsController.js: createCollection *)

Module CollectionsController.

Module W := WalletModel.
Module T := TransactionModel.

(** [findOrCreateWallet(userId, ownerType)]: the first wallet of that owner
    and owner type, or a new KES wallet with the schema's zero balances,
    saved under a fresh id. *)
Definition findOrCreateWallet (db : Db) (userId ownerType uuid : string) : W.Wallet * Db :=
  match find (fun kv => String.eqb (W.owner_id (snd kv)) userId
                        && String.eqb (W.owner_type (snd kv)) ownerType)
             (map_to_list (wallets db)) with
  | Some kv => (snd kv, db)
  | None =>
      let wallet := W.mkWallet ("wallet_" ++ uuid) ownerType userId "KES"
                               (W.mkBalances 0 0 0) in
      (wallet, set_wallets db (<[W.wallet_id wallet := wallet]> (wallets db)))
  end.

(** [POST /collections].  [provider] is the outcome of the call to the
    payment collaborator chosen by [payment_method]: the [status] of its
    response, or the message of the error it throws. *)
Definition createCollection (db : Db) (userId uuid uuid_wallet : string) (amount : Q)
           (payment_method : string) (provider : result string) : Response * Db :=
  let transaction_id := "col_" ++ uuid in
  let processing_fee := (amount * 0.025)%Q in
  let platform_fee := 0%Q in
  let total_fee := (processing_fee + platform_fee)%Q in
  let net_amount := (amount - total_fee)%Q in
  let transaction :=
    T.construct transaction_id "collection" "pending" amount
      (T.mkFeesInput (Some processing_fee) (Some platform_fee) (Some total_fee))
      net_amount None None None in
  let '(transaction, db1) := transaction_save transaction db in
  let paymentResponse : result string :=
    if String.eqb payment_method "mpesa" || String.eqb payment_method "card"
       || String.eqb payment_method "bank"
    then provider
    else Throw "Unsupported payment method" in
  let failed msg dbf :=
    let transaction := T.set_failure_reason (T.set_status transaction "failed") msg in
    let '(_, db2) := transaction_save transaction dbf in
    (mkResponse 400 "Payment processing failed", db2) in
  match paymentResponse with
  | Ok st =>
      let transaction := T.set_status transaction st in
      if String.eqb st "completed" then
        let '(wallet, db2) := findOrCreateWallet db1 userId "user" uuid_wallet in
        match wallet_call W.addFunds wallet net_amount db2 with
        | Throw msg => failed msg db2
        | Ok (_, db3) =>
            let '(_, db4) := transaction_save transaction db3 in
            (mkResponse 201 "Collection initiated successfully", db4)
        end
      else
        let '(_, db2) := transaction_save transaction db1 in
        (mkResponse 201 "Collection initiated successfully", db2)
  | Throw msg => failed msg db1
  end.

End CollectionsController.

(** ** services/payoutService.js *)

Module PayoutService.

Module W := WalletModel.

(** [processWalletPayout]: the destination wallet is looked up afresh and
    credited in place ([balances.available += amount]); the function
    reports [completed].  Any failure is rethrown with a prefix. *)
Definition processWalletPayout (db : Db) (amount : Q) (wallet_id : option string)
  : result (string * Db) :=
  match wallet_id with
  | None => Throw "Wallet transfer failed: Destination wallet not found"
  | Some id =>
      match wallets db !! id with
      | None => Throw "Wallet transfer failed: Destination wallet not found"
      | Some destinationWallet =>
          match wallet_call W.addFunds destinationWallet amount db with
          | Throw msg => Throw ("Wallet transfer failed: " ++ msg)
          | Ok (_, db') => Ok ("completed", db')
          end
      end
  end.

(** [processMpesaPayout]: [b2c] is the outcome of the B2C request sent to
    the provider. *)
Definition processMpesaPayout (b2c : result string) : result string :=
  match b2c with
  | Ok _ => Ok "pending"
  | Throw msg => Throw ("M-Pesa payout failed: " ++ msg)
  end.

(** [processBankPayout]: reading [bank_account.account_number] throws when
    the destination has no [bank_account]; the transfer itself is a stub
    that reports [processing]. *)
Definition processBankPayout (bank_account : option string) : result string :=
  match bank_account with
  | Some _ => Ok "processing"
  | None => Throw "Bank transfer failed: Cannot read properties of undefined"
  end.

End PayoutService.

(** ** The payout controller: selectPaymentRail, createPayout, cancelPayout *)

Module PayoutController.

Module W := WalletModel.
Module T := TransactionModel.

(** [req.body.destination]; an absent [type] is the empty string. *)
Record Destination : Type := mkDestination {
  type : string;
  phone : option string;
  bank_account : option string;
  wallet_id : option string
}.

Record Routing : Type := mkRouting {
  rail : string;
  fee : Q;
  instant : bool
}.

Definition selectPaymentRail (destination : Destination) (amount : Q) (currency : string)
  : Routing :=
  if String.eqb (type destination) "wallet" then
    mkRouting "internal" 0 true
  else if String.eqb (type destination) "mpesa" then
    if Qle_bool amount 250000
    then mkRouting "mpesa_b2c" (amount * 0.015) true
    else mkRouting "mpesa_corporate" 100 false
  else if String.eqb (type destination) "bank" then
    if String.eqb currency "KES" && JS.ltb amount 999999
    then mkRouting "pesalink" 50 true
    else mkRouting "rtgs" 150 false
  else
    mkRouting "unknown" 0 false.

Definition currency_or_KES (c : option string) : string :=
  match c with Some s => s | None => "KES" end.

Definition allowed_type (t : string) : bool :=
  String.eqb t "mpesa" || String.eqb t "bank" || String.eqb t "wallet".

(** [POST /payouts].  [b2c] is the outcome of the M-Pesa B2C request, used
    when the destination is an M-Pesa number. *)
Definition createPayout (db : Db) (userId uuid source_wallet_id : string)
           (destination : option Destination) (amount : Q) (currency : option string)
           (b2c : result string) : Response * Db :=
  let cur := currency_or_KES currency in
  match destination with
  | None => (mkResponse 400 "source_wallet_id, destination, and amount required", db)
  | Some destination =>
      if String.eqb source_wallet_id "" || Qeq_bool amount 0
      then (mkResponse 400 "source_wallet_id, destination, and amount required", db)
      else if String.eqb (type destination) "" || negb (allowed_type (type destination))
      then (mkResponse 400 "Invalid destination type", db)
      else
        match WalletController.find_owned db source_wallet_id userId with
        | None => (mkResponse 404 "Source wallet not found", db)
        | Some sourceWallet =>
            let routing := selectPaymentRail destination amount cur in
            let fees := fee routing in
            let netAmount := (amount - fees)%Q in
            let totalAmount := (amount + fees)%Q in
            if negb (W.hasSufficientFunds sourceWallet totalAmount false)
            then (mkResponse 400 "Insufficient balance", db)
            else
              let payout_id := "payout_" ++ uuid in
              let transaction :=
                T.construct payout_id "payout" "pending" totalAmount
                  (T.mkFeesInput (Some fees) (Some 0%Q) (Some fees))
                  netAmount (Some source_wallet_id) None (Some userId) in
              let '(transaction, db1) := transaction_save transaction db in
              match wallet_call W.deductFunds sourceWallet totalAmount db1 with
              | Throw _ => (mkResponse 500 "Failed to create payout", db1)
              | Ok (sourceWallet, db2) =>
                  let outcome : result (string * Db) :=
                    if String.eqb (type destination) "wallet" then
                      PayoutService.processWalletPayout db2 netAmount (wallet_id destination)
                    else if String.eqb (type destination) "mpesa" then
                      match PayoutService.processMpesaPayout b2c with
                      | Ok st => Ok (st, db2)
                      | Throw msg => Throw msg
                      end
                    else if String.eqb (type destination) "bank" then
                      match PayoutService.processBankPayout (bank_account destination) with
                      | Ok st => Ok (st, db2)
                      | Throw msg => Throw msg
                      end
                    else Throw "Unsupported destination type" in
                  match outcome with
                  | Ok (payoutStatus, db3) =>
                      let transaction := T.set_status transaction payoutStatus in
                      let '(_, db4) := transaction_save transaction db3 in
                      (mkResponse 201 "Payout created", db4)
                  | Throw msg =>
                      let transaction :=
                        T.set_failure_reason (T.set_status transaction "failed") msg in
                      let '(_, db3) := transaction_save transaction db2 in
                      match wallet_call W.addFunds sourceWallet totalAmount db3 with
                      | Throw _ => (mkResponse 500 "Failed to create payout", db3)
                      | Ok (_, db4) => (mkResponse 400 "Payout processing failed", db4)
                      end
                  end
              end
        end
  end.

(** [createPayoutInternal], the per-item step of a bulk payout: it records
    the payout and moves no funds. *)
Definition createPayoutInternal (db : Db) (userId payout_id : string) (amount : Q)
           (source_wallet_id : option string) : Db :=
  let processing_fee := (amount * 0.015)%Q in
  let platform_fee := 0%Q in
  let total_fee := (processing_fee + platform_fee)%Q in
  let total_amount := (amount + total_fee)%Q in
  let net_amount := amount in
  let transaction :=
    T.construct payout_id "payout" "pending" total_amount
      (T.mkFeesInput (Some processing_fee) (Some platform_fee) (Some total_fee))
      net_amount source_wallet_id None (Some userId) in
  let '(transaction, db1) := transaction_save transaction db in
  let transaction := T.set_status transaction "processing" in
  snd (transaction_save transaction db1).

Definition option_eqb (o : option string) (s : string) : bool :=
  match o with Some x => String.eqb x s | None => false end.

(** [POST /payouts/:payout_id/cancel]. *)
Definition cancelPayout (db : Db) (userId payout_id : string) : Response * Db :=
  match transactions db !! payout_id with
  | None => (mkResponse 404 "Payout not found", db)
  | Some t =>
      if negb (String.eqb (T.type t) "payout" && option_eqb (T.user_id t) userId)
      then (mkResponse 404 "Payout not found", db)
      else if negb (String.eqb (T.status t) "pending" || String.eqb (T.status t) "processing")
      then (mkResponse 400 "Payout cannot be cancelled", db)
      else
        let transaction := T.set_status (T.load t) "cancelled" in
        let '(transaction, db1) := transaction_save transaction db in
        match T.source_wallet_id (T.data transaction) with
        | None => (mkResponse 200 "Payout cancelled successfully", db1)
        | Some id =>
            match wallets db1 !! id with
            | None => (mkResponse 200 "Payout cancelled successfully", db1)
            | Some sourceWallet =>
                match wallet_call W.addFunds sourceWallet (T.amount (T.data transaction)) db1 with
                | Throw _ => (mkResponse 500 "Failed to cancel payout", db1)
                | Ok (_, db2) => (mkResponse 200 "Payout cancelled successfully", db2)
                end
            end
        end
  end.

End PayoutController.

(** ** services/webhookService.js: the retry loop of sendWebhook *)

Module WebhookService.

Definition maxRetries : nat := 3.

Definition retryDelays : list Z := [5000; 15000; 45000]%Z.

(** What the loop does to the outside world: an HTTP POST to the endpoint,
    or a [setTimeout] wait of the given number of milliseconds. *)
Inductive Event : Type :=
| Post
| Wait (ms : Z).

(** What [sendWebhook] returns: [{ success: true, attempt, status }] or
    [{ success: false, totalAttempts, error }]. *)
Inductive Outcome : Type :=
| Delivered (attempt : nat) (status : nat)
| Failed (totalAttempts : nat) (error : string).

(** The [while (attempt < this.maxRetries)] loop.  [endpoint n] is the
    outcome of [axios.post] issued while the counter [attempt] is [n]: the
    HTTP status of the response, or the message of the error thrown.
    [fuel] bounds the number of iterations; [None] means it ran out. *)
Fixpoint retry_loop (fuel : nat) (endpoint : nat -> result nat) (attempt : nat)
         (lastError : string) (trace : list Event) : option (Outcome * list Event) :=
  if Nat.ltb attempt maxRetries then
    match fuel with
    | O => None
    | S fuel' =>
        match endpoint attempt with
        | Ok status => Some (Delivered (attempt + 1) status, (trace ++ [Post])%list)
        | Throw msg =>
            let attempt' := attempt + 1 in
            let trace' := (trace ++ [Post])%list in
            let trace'' :=
              if Nat.ltb attempt' maxRetries
              then (trace' ++ [Wait (nth (attempt' - 1) retryDelays 0%Z)])%list
              else trace' in
            retry_loop fuel' endpoint attempt' msg trace''
        end
    end
  else Some (Failed attempt lastError, trace).

Definition sendWebhook (endpoint : nat -> result nat) : option (Outcome * list Event) :=
  retry_loop maxRetries endpoint 0 "" [].

Definition is_post (e : Event) : bool :=
  match e with Post => true | Wait _ => false end.

Definition posts (trace : list Event) : nat := length (List.filter is_post trace).

End WebhookService.

(** ** The scenario arithmetic on IEEE-754 doubles *)

Module Binary64.

(** [amount * 0.02], [amount * 0.015] and [amount * 0.005] as the
    interpreter computes them: the literals are the doubles nearest to the
    decimal fractions. *)
Definition escrow_fee (amount : float) : float :=
  PrimFloat.mul amount 0x1.47ae147ae147bp-6%float.

Definition processing_fee (amount : float) : float :=
  PrimFloat.mul amount 0x1.eb851eb851eb8p-7%float.

Definition transfer_fee (amount : float) : float :=
  PrimFloat.mul amount 0x1.47ae147ae147bp-8%float.

End Binary64.

(** ** The public interface as a transition system *)

Inductive Request : Type :=
| CreateEscrow (userId uuid_escrow uuid_txn : string) (b : EscrowController.CreateEscrowBody)
| FulfillCondition (userId escrow_id : string) (condition_id : nat) (fulfilled_by : string)
| ReleaseEscrow (userId uuid_rel escrow_id : string)
| RefundEscrow (userId uuid_ref escrow_id why : string)
| RaiseDispute (userId uuid_dispute escrow_id why descr : string)
| FundWallet (userId uuid wallet_id : string) (amount : Q) (currency : option string)
             (payment_method : string) (mpesa : result string)
| WithdrawFromWallet (userId uuid wallet_id : string) (amount : Q) (payment_method : string)
| TransferFunds (userId uuid : string) (amount : Q) (recipient_wallet_id : string)
                (currency : option string)
| CreatePayout (userId uuid source_wallet_id : string)
               (destination : option PayoutController.Destination) (amount : Q)
               (currency : option string) (b2c : result string)
| BulkPayoutItem (userId payout_id : string) (amount : Q) (source_wallet_id : option string)
| CancelPayout (userId payout_id : string)
| CreateCollection (userId uuid uuid_wallet : string) (amount : Q) (payment_method : string)
                   (provider : result string).

Definition handle (db : Db) (r : Request) : Response * Db :=
  match r with
  | CreateEscrow u e t b => EscrowController.createEscrow db u e t b
  | FulfillCondition u e c f => EscrowController.fulfillCondition db u e c f
  | ReleaseEscrow u r e => EscrowController.releaseEscrow db u r e
  | RefundEscrow u r e w => EscrowController.refundEscrow db u r e w
  | RaiseDispute u d e w s => EscrowController.raiseDispute db u d e w s
  | FundWallet u i w a c p m => WalletController.fundWallet db u i w a c p m
  | WithdrawFromWallet u i w a p => WalletController.withdrawFromWallet db u i w a p
  | TransferFunds u i a r c => WalletController.transferFunds db u i a r c
  | CreatePayout u i s d a c b => PayoutController.createPayout db u i s d a c b
  | BulkPayoutItem u p a s =>
      (mkResponse 201 "Bulk payout processed", PayoutController.createPayoutInternal db u p a s)
  | CancelPayout u p => PayoutController.cancelPayout db u p
  | CreateCollection u i w a p o => CollectionsController.createCollection db u i w a p o
  end.

(** The amount a request carries, when it carries one. *)
Definition request_amount (r : Request) : option Q :=
  match r with
  | CreateEscrow _ _ _ b => Some (EscrowController.amount b)
  | FundWallet _ _ _ a _ _ _ => Some a
  | WithdrawFromWallet _ _ _ a _ => Some a
  | TransferFunds _ _ a _ _ => Some a
  | CreatePayout _ _ _ _ a _ _ => Some a
  | BulkPayoutItem _ _ a _ => Some a
  | CreateCollection _ _ _ a _ _ => Some a
  | _ => None
  end.

(** The database after a sequence of requests. *)
Definition run (db : Db) (rs : list Request) : Db :=
  fold_left (fun d r => snd (handle d r)) rs db.

(** ** Balances, fees and totals *)

Definition nonneg_balances (b : WalletModel.Balances) : Prop :=
  (0 <= WalletModel.available b /\ 0 <= WalletModel.locked b /\ 0 <= WalletModel.pending b)%Q.

Definition fee_invariant (t : TransactionModel.Transaction) : Prop :=
  (TransactionModel.total_fee (TransactionModel.fees t)
   == TransactionModel.processing_fee (TransactionModel.fees t)
      + TransactionModel.platform_fee (TransactionModel.fees t)
   /\ TransactionModel.net_amount t
      == TransactionModel.amount t - TransactionModel.total_fee (TransactionModel.fees t))%Q.




(** ** Invariants of the database *)

Definition wallets_nonneg (db : Db) : Prop :=
  map_Forall (fun _ w => nonneg_balances (WalletModel.balances w)) (wallets db).

(** Stored transactions and escrows carry non-negative amounts, and an
    escrow's processing fee does not exceed its amount. *)
Definition records_nonneg (db : Db) : Prop :=
  map_Forall (fun _ t => (0 <= TransactionModel.amount t
                          /\ 0 <= TransactionModel.net_amount t)%Q) (transactions db)
  /\ map_Forall (fun _ e => (0 <= EscrowModel.amount e
                             /\ EscrowModel.processing_fee (EscrowModel.fees e)
                                <= EscrowModel.amount e)%Q) (escrows db).

Definition amount_nonneg (r : Request) : Prop :=
  match request_amount r with
  | Some a => (0 <= a)%Q
  | None => True
  end.

Definition fees_consistent (db : Db) : Prop :=
  map_Forall (fun _ t => fee_invariant t) (transactions db).

Definition all_require_all_conditions (db : Db) : Prop :=
  map_Forall (fun _ e => EscrowModel.require_all_conditions (EscrowModel.release_settings e)
                         = true) (escrows db).

(** What a transaction document will satisfy once saved: either the hook
    is about to recompute its totals, or they are consistent already. *)
Definition doc_consistent (d : TransactionModel.Doc) : Prop :=
  TransactionModel.fees_modified d = true \/ fee_invariant (TransactionModel.data d).

Definition requires_all (e : EscrowModel.Escrow) : Prop :=
  EscrowModel.require_all_conditions (EscrowModel.release_settings e) = true.

Definition nonneg_wallet (w : WalletModel.Wallet) : Prop :=
  nonneg_balances (WalletModel.balances w).

Definition preserves_nonneg (m : WalletModel.Wallet -> Q -> result WalletModel.Wallet) : Prop :=
  forall w a w', nonneg_wallet w -> (0 <= a)%Q -> m w a = Ok w' -> nonneg_wallet w'.

Definition txn_nonneg (t : TransactionModel.Transaction) : Prop :=
  (0 <= TransactionModel.amount t /\ 0 <= TransactionModel.net_amount t)%Q.

Definition escrow_nonneg (e : EscrowModel.Escrow) : Prop :=
  (0 <= EscrowModel.amount e
   /\ EscrowModel.processing_fee (EscrowModel.fees e) <= EscrowModel.amount e)%Q.

Definition money_inv (db : Db) : Prop := wallets_nonneg db /\ records_nonneg db.

(** Two balance records holding the same numbers. *)
Definition same_balances (x y : WalletModel.Balances) : Prop :=
  (WalletModel.available x == WalletModel.available y
   /\ WalletModel.locked x == WalletModel.locked y
   /\ WalletModel.pending x == WalletModel.pending y)%Q.


(** Every stored wallet sits under its own [wallet_id]. *)
Definition well_keyed (db : Db) : Prop :=
  forall k w, wallets db !! k = Some w -> WalletModel.wallet_id w = k.

(** ** The databases and requests of the scenarios *)

Module Scenario.

Definition walletA : WalletModel.Wallet :=
  WalletModel.mkWallet "A" "user" "payer" "KES" (WalletModel.mkBalances 15000 0 0).

Definition walletB : WalletModel.Wallet :=
  WalletModel.mkWallet "B" "user" "payee" "KES" (WalletModel.mkBalances 0 0 0).

(** Wallet A holds 15,000 available, wallet B nothing; no transaction and no
    escrow has been recorded yet. *)
Definition db0 : Db :=
  mkDb (<["A" := walletA]> (<["B" := walletB]> ∅)) ∅ ∅.

Definition body (auto_release_date : option string) : EscrowController.CreateEscrowBody :=
  EscrowController.mkCreateEscrowBody 10000 None "A" "B"
    [EscrowController.mkConditionInput "delivery" "goods delivered"]
    auto_release_date.

(** An escrow of 10,000 KES from A to B with one condition; a release date
    is what switches [auto_release] on. *)
Definition create (auto_release_date : option string) : Request :=
  CreateEscrow "payer" "e1" "t1" (body auto_release_date).

Definition fulfill : Request := FulfillCondition "payee" "esc_e1" 0 "payee".

Definition release : Request := ReleaseEscrow "payer" "r1" "esc_e1".

Definition refund : Request := RefundEscrow "payer" "f1" "esc_e1" "buyer changed mind".



(** The records the escrow scenario leaves in the store after creation. *)
Definition hold_transaction : TransactionModel.Transaction :=
  TransactionModel.mkTransaction "txn_t1" "escrow_hold" "completed" 10000
    (TransactionModel.mkFees 0 (10000 * 0.02) (0 + 10000 * 0.02))
    (10000 - (0 + 10000 * 0.02))
    (Some "A") (Some "esc_e1") (Some "payer") None 0.

Definition active_escrow : EscrowModel.Escrow :=
  EscrowModel.mkEscrow "esc_e1" "txn_t1" 10000 "KES"
    (EscrowModel.mkParty "payer" "A") (EscrowModel.mkParty "payee" "B")
    [EscrowModel.mkCondition 0 "delivery" "goods delivered" false None]
    "active"
    (EscrowModel.mkReleaseSettings false None true)
    (EscrowModel.mkEscrowFees (10000 * 0.02) 0 (10000 * 0.02 + 0))
    [].

End Scenario.

(** ** models/Transaction.js: scheduleRetry *)

Module TransactionMethods.

Module T := TransactionModel.

Definition set_retry_count (d : T.Doc) (n : nat) : T.Doc :=
  let t := T.data d in
  T.mkDoc (T.mkTransaction (T.transaction_id t) (T.type t) (T.status t) (T.amount t) (T.fees t)
                           (T.net_amount t) (T.source_wallet_id t) (T.destination_wallet_id t)
                           (T.user_id t) (T.failure_reason t) n)
          (T.fees_modified d).

(** [scheduleRetry(delayMinutes = 5)]: [processing.retry_count += 1], a new
    [next_retry_at] (a date, dropped) and [this.save()]. *)
Definition scheduleRetry (d : T.Doc) (db : Db) : T.Doc * Db :=
  transaction_save (set_retry_count d (T.retry_count (T.data d) + 1)) db.

End TransactionMethods.

(** ** The payout controller: retryPayout *)

Module PayoutRetry.

Module T := TransactionModel.

(** [POST /payouts/:payout_id/retry]. *)
Definition retryPayout (db : Db) (userId payout_id : string) : Response * Db :=
  match transactions db !! payout_id with
  | None => (mkResponse 404 "Payout not found", db)
  | Some t =>
      if negb (String.eqb (T.type t) "payout"
               && PayoutController.option_eqb (T.user_id t) userId)
      then (mkResponse 404 "Payout not found", db)
      else if negb (String.eqb (T.status t) "failed")
      then (mkResponse 400 "Only failed payouts can be retried", db)
      else if Nat.leb 3 (T.retry_count t)
      then (mkResponse 400 "Maximum retry attempts exceeded", db)
      else
        let '(_, db1) := TransactionMethods.scheduleRetry (T.load t) db in
        (mkResponse 200 "Payout retry scheduled", db1)
  end.

End PayoutRetry.

(** ** The payout controller: createBulkPayouts *)

Module BulkPayouts.

Module T := TransactionModel.

(** An element of [req.body.payouts]: the fields that reach the ledger. *)
Record PayoutData : Type := mkPayoutData {
  amount : Q;
  source_wallet_id : option string
}.

(** What [createPayoutInternal] returns. *)
Record PayoutResponse : Type := mkPayoutResponse {
  payout_id : string;
  status : string;
  total_amount : Q;
  fees : T.Fees
}.

(** [createPayoutInternal] with the object it returns.  [source_wallet_id]
    is recorded when it is truthy. *)
Definition createPayoutInternal (db : Db) (userId payout_id : string) (p : PayoutData)
  : PayoutResponse * Db :=
  let processing_fee := (amount p * 0.015)%Q in
  let platform_fee := 0%Q in
  let total_fee := (processing_fee + platform_fee)%Q in
  let total_amount := (amount p + total_fee)%Q in
  let net_amount := amount p in
  let transaction :=
    T.construct payout_id "payout" "pending" total_amount
      (T.mkFeesInput (Some processing_fee) (Some platform_fee) (Some total_fee))
      net_amount
      (if JS.truthy (source_wallet_id p) then source_wallet_id p else None)
      None (Some userId) in
  let '(transaction, db1) := transaction_save transaction db in
  let transaction := T.set_status transaction "processing" in
  let '(transaction, db2) := transaction_save transaction db1 in
  (mkPayoutResponse (T.transaction_id (T.data transaction)) "processing"
                    (T.amount (T.data transaction)) (T.fees (T.data transaction)),
   db2).

(** An element of [results]. *)
Record BulkResult : Type := mkBulkResult {
  index : nat;
  success : bool;
  result_payout_id : string;
  result_status : string
}.

Record Summary : Type := mkSummary {
  total_payouts : nat;
  successful_count : nat;
  failed_count : nat;
  summary_total_amount : Q;
  summary_total_fees : Q
}.

Record BulkResponse : Type := mkBulkResponse {
  bulk_code : nat;
  bulk_body : string;
  summary : option Summary;
  results : list BulkResult
}.

(** The state of the [for] loop: the database, [results], [total_amount]
    and [total_fees]. *)
Record Loop : Type := mkLoop {
  loop_db : Db;
  loop_results : list BulkResult;
  loop_total_amount : Q;
  loop_total_fees : Q
}.

(** One iteration, for the item at index [i].  The embedded
    [createPayoutInternal] always returns, so the [catch] of the loop body
    is not entered. *)
Definition iteration (userId bulk_id : string) (uuids : nat -> string) (st : Loop)
           (item : nat * PayoutData) : Loop :=
  let i := fst item in
  let payout_id := bulk_id ++ "_" ++ pretty i ++ "_" ++ uuids i in
  let '(payoutResponse, db') := createPayoutInternal (loop_db st) userId payout_id (snd item) in
  mkLoop db'
         (loop_results st ++ [mkBulkResult i true (BulkPayouts.payout_id payoutResponse)
                                           (status payoutResponse)])%list
         (loop_total_amount st + total_amount payoutResponse)%Q
         (loop_total_fees st + T.total_fee (fees payoutResponse))%Q.

(** [POST /payouts/bulk].  [uuid] names the batch and [uuids i] is the
    random suffix of the i-th payout id. *)
Definition createBulkPayouts (db : Db) (userId uuid : string) (uuids : nat -> string)
           (payouts : list PayoutData) : BulkResponse * Db :=
  if Nat.ltb 100 (length payouts)
  then (mkBulkResponse 400 "Maximum 100 payouts allowed per bulk request" None [], db)
  else
    let bulk_id := "bulk_" ++ uuid in
    let st := fold_left (iteration userId bulk_id uuids)
                        (combine (seq 0 (length payouts)) payouts)
                        (mkLoop db [] 0 0) in
    let successful_count := length (List.filter success (loop_results st)) in
    let failed_count := length (loop_results st) - successful_count in
    (mkBulkResponse 201 "Bulk payout processed"
       (Some (mkSummary (length payouts) successful_count failed_count
                        (loop_total_amount st) (loop_total_fees st)))
       (loop_results st),
     loop_db st).

End BulkPayouts.

(** ** controllers/webhooksController.js: the confirmations that move funds *)

Module WebhooksController.

Module W := WalletModel.
Module T := TransactionModel.

(** [if (transaction.destination.wallet_id) { wallet = findOne(...); if
    (wallet) await wallet.addFunds(transaction.net_amount) }]. *)
Definition credit_destination (t : T.Transaction) (db : Db) : result Db :=
  if JS.truthy (T.destination_wallet_id t) then
    match T.destination_wallet_id t with
    | None => Ok db
    | Some id =>
        match wallets db !! id with
        | None => Ok db
        | Some wallet =>
            match wallet_call W.addFunds wallet (T.net_amount t) db with
            | Throw msg => Throw msg
            | Ok (_, db') => Ok db'
            end
        end
    end
  else Ok db.

(** [POST /webhooks/mpesa/c2b/confirmation]: the answer is always sent with
    HTTP status 200; [body] is its [ResultDesc]. *)
Definition mpesaC2BConfirmation (db : Db) (BillRefNumber : string) : Response * Db :=
  match transactions db !! BillRefNumber with
  | None => (mkResponse 200 "Success", db)
  | Some t =>
      if negb (String.eqb (T.type t) "collection" && String.eqb (T.status t) "pending")
      then (mkResponse 200 "Success", db)
      else
        let transaction := T.set_status (T.load t) "completed" in
        let '(transaction, db1) := transaction_save transaction db in
        match credit_destination (T.data transaction) db1 with
        | Throw _ => (mkResponse 200 "Failed", db1)
        | Ok db2 => (mkResponse 200 "Success", db2)
        end
  end.

(** [POST /webhooks/bank/confirmation].  A [status] that is absent behaves
    as any string other than [completed]. *)
Definition bankConfirmation (db : Db) (transaction_id status : string) : Response * Db :=
  match transactions db !! transaction_id with
  | None => (mkResponse 404 "Transaction not found", db)
  | Some t =>
      if negb (String.eqb (T.status t) "pending" || String.eqb (T.status t) "processing")
      then (mkResponse 404 "Transaction not found", db)
      else
        let transaction := T.load t in
        if String.eqb status "completed" then
          let transaction := T.set_status transaction "completed" in
          match credit_destination (T.data transaction) db with
          | Throw _ => (mkResponse 500 "Processing failed", db)
          | Ok db1 =>
              let '(_, db2) := transaction_save transaction db1 in
              (mkResponse 200 "success", db2)
          end
        else
          let transaction :=
            T.set_failure_reason (T.set_status transaction "failed") "Bank transfer failed" in
          let '(_, db1) := transaction_save transaction db in
          (mkResponse 200 "success", db1)
  end.

End WebhooksController.

(** ** controllers/webhooksController.js: the M-Pesa B2C callbacks *)

Module PayoutCallbacks.

Module W := WalletModel.
Module T := TransactionModel.

Section Matching.

(** [regex_test pattern id]: whether the regular expression built from
    [pattern] matches the string [id], as in the query
    [{ transaction_id: { $regex: pattern } }]. *)
Variable regex_test : string -> string -> bool.

(** [Transaction.findOne({ transaction_id: { $regex }, type: 'payout',
    status: { $in: ['pending', 'processing'] } })]: a query that is not on
    the key; the first match in the store's iteration order is returned. *)
Definition find_payout (db : Db) (pattern : string) : option T.Transaction :=
  match find (fun kv => regex_test pattern (T.transaction_id (snd kv))
                        && String.eqb (T.type (snd kv)) "payout"
                        && (String.eqb (T.status (snd kv)) "pending"
                            || String.eqb (T.status (snd kv)) "processing"))
             (map_to_list (transactions db)) with
  | Some kv => Some (snd kv)
  | None => None
  end.

(** [if (transaction.source.wallet_id) { sourceWallet = findOne(...); if
    (sourceWallet) await sourceWallet.addFunds(transaction.amount) }]. *)
Definition refund_source (t : T.Transaction) (db : Db) : result Db :=
  if JS.truthy (T.source_wallet_id t) then
    match T.source_wallet_id t with
    | None => Ok db
    | Some id =>
        match wallets db !! id with
        | None => Ok db
        | Some sourceWallet =>
            match wallet_call W.addFunds sourceWallet (T.amount t) db with
            | Throw msg => Throw msg
            | Ok (_, db') => Ok db'
            end
        end
    end
  else Ok db.

(** [POST /webhooks/mpesa/b2c/result], for a body that carries [Result]
    with a numeric [ResultCode]; [body] is the [ResultDesc] of the answer,
    which is always sent with HTTP status 200. *)
Definition mpesaB2CResult (db : Db) (OriginatorConversationID : string) (ResultCode : Z)
           (ResultDesc : string) : Response * Db :=
  match find_payout db OriginatorConversationID with
  | None => (mkResponse 200 "Success", db)
  | Some t =>
      let transaction := T.load t in
      if Z.eqb ResultCode 0 then
        let transaction := T.set_status transaction "completed" in
        let '(_, db1) := transaction_save transaction db in
        (mkResponse 200 "Success", db1)
      else
        let transaction :=
          T.set_failure_reason (T.set_status transaction "failed") ResultDesc in
        match refund_source (T.data transaction) db with
        | Throw _ => (mkResponse 200 "Failed", db)
        | Ok db1 =>
            let '(_, db2) := transaction_save transaction db1 in
            (mkResponse 200 "Success", db2)
        end
  end.

(** [POST /webhooks/mpesa/b2c/timeout]. *)
Definition mpesaB2CTimeout (db : Db) (OriginatorConversationID : string) : Response * Db :=
  match find_payout db OriginatorConversationID with
  | None => (mkResponse 200 "Success", db)
  | Some t =>
      let transaction :=
        T.set_failure_reason (T.set_status (T.load t) "failed") "B2C timeout" in
      let '(transaction, db1) := transaction_save transaction db in
      match refund_source (T.data transaction) db1 with
      | Throw _ => (mkResponse 200 "Failed", db1)
      | Ok db2 => (mkResponse 200 "Success", db2)
      end
  end.

End Matching.

End PayoutCallbacks.

(** ** controllers/collectionsController.js: cancelCollection *)

Module CollectionsCancel.

Module T := TransactionModel.

(** [POST /collections/:transaction_id/cancel].  The call to the provider is
    wrapped in its own [try]/[catch] and its outcome is ignored. *)
Definition cancelCollection (db : Db) (userId transaction_id : string) : Response * Db :=
  match transactions db !! transaction_id with
  | None => (mkResponse 404 "Collection not found", db)
  | Some t =>
      if negb (String.eqb (T.type t) "collection"
               && PayoutController.option_eqb (T.user_id t) userId)
      then (mkResponse 404 "Collection not found", db)
      else if String.eqb (T.status t) "completed"
      then (mkResponse 400 "Cannot cancel completed collection", db)
      else if String.eqb (T.status t) "cancelled"
      then (mkResponse 400 "Collection already cancelled", db)
      else
        let transaction := T.set_status (T.load t) "cancelled" in
        let '(_, db1) := transaction_save transaction db in
        (mkResponse 200 "Collection cancelled successfully", db1)
  end.

End CollectionsCancel.

(** ** services/webhookService.js: sendBatchWebhooks *)

Module WebhookBatch.

(** An element of [webhooks].  [rejects] is the error thrown while the
    request is prepared, before the first post (signing a payload that
    [JSON.stringify] refuses, reading [payload.event] of a missing payload),
    when there is one; [endpoint] is the behaviour of the receiving
    server. *)
Record Webhook : Type := mkWebhook {
  rejects : option string;
  endpoint : nat -> result nat
}.

(** An entry of the array [Promise.allSettled] resolves to. *)
Inductive Settled : Type :=
| Fulfilled (value : WebhookService.Outcome)
| Rejected (reason : string).

(** An element of the array [sendBatchWebhooks] returns. *)
Record Entry : Type := mkEntry {
  index : nat;
  success : bool;
  data : option WebhookService.Outcome;
  error : option string
}.

(** The promise of [this.sendWebhook(url, payload, { priority })]: it
    rejects when the preparation throws and otherwise fulfils with the
    object the retry loop returns. *)
Definition settle (w : Webhook) : option Settled :=
  match rejects w with
  | Some reason => Some (Rejected reason)
  | None =>
      match WebhookService.sendWebhook (endpoint w) with
      | Some (outcome, _) => Some (Fulfilled outcome)
      | None => None
      end
  end.

Definition entry (i : nat) (r : Settled) : Entry :=
  mkEntry i
          (match r with Fulfilled _ => true | Rejected _ => false end)
          (match r with Fulfilled v => Some v | Rejected _ => None end)
          (match r with Fulfilled _ => None | Rejected reason => Some reason end).

(** [results.map((result, index) => ...)] over the settled promises;
    [None] when one of them never settles. *)
Fixpoint entries (i : nat) (webhooks : list Webhook) : option (list Entry) :=
  match webhooks with
  | [] => Some []
  | w :: rest =>
      match settle w, entries (S i) rest with
      | Some r, Some es => Some (entry i r :: es)
      | _, _ => None
      end
  end.

Definition sendBatchWebhooks (webhooks : list Webhook) : option (list Entry) :=
  entries 0 webhooks.

End WebhookBatch.

(** ** Observations on webhook traces, escrow states and responses *)

(** The milliseconds a trace spends in [setTimeout]. *)
Definition total_wait (trace : list WebhookService.Event) : Z :=
  fold_right (fun e acc => match e with
                           | WebhookService.Post => acc
                           | WebhookService.Wait ms => (ms + acc)%Z
                           end) 0%Z trace.

(** Whether a request creates the escrow stored under [id]. *)
Definition creates_escrow (id : string) (r : Request) : bool :=
  match r with
  | CreateEscrow _ uuid_escrow _ _ => String.eqb ("esc_" ++ uuid_escrow) id
  | _ => false
  end.

(** The changes of status the escrow handlers make. *)
Definition allowed_transition (from to : string) : Prop :=
  to = from
  \/ (from = "active" /\ (to = "released" \/ to = "refunded" \/ to = "disputed"))
  \/ (from = "disputed" /\ to = "refunded").

(** Every stored escrow sits under its own [escrow_id], every stored
    transaction under its own [transaction_id]. *)
Definition escrows_well_keyed (db : Db) : Prop :=
  forall k e, escrows db !! k = Some e -> EscrowModel.escrow_id e = k.

Definition transactions_well_keyed (db : Db) : Prop :=
  forall k t, transactions db !! k = Some t -> TransactionModel.transaction_id t = k.

Definition keyed (db : Db) : Prop :=
  well_keyed db /\ escrows_well_keyed db /\ transactions_well_keyed db.



(** A 4xx answer other than the two sent after a provider call failed. *)
Definition refused (r : Response) : bool :=
  (Nat.eqb (code r) 400 || Nat.eqb (code r) 403 || Nat.eqb (code r) 404)
  && negb (String.eqb (body r) "Payment processing failed")
  && negb (String.eqb (body r) "Payout processing failed").

(** The balances of a wallet after [x] was added to [available]. *)
Definition credited (before after : WalletModel.Wallet) (x : Q) : Prop :=
  (WalletModel.available (WalletModel.balances after)
   == WalletModel.available (WalletModel.balances before) + x
   /\ WalletModel.locked (WalletModel.balances after)
      == WalletModel.locked (WalletModel.balances before)
   /\ WalletModel.pending (WalletModel.balances after)
      == WalletModel.pending (WalletModel.balances before))%Q.

(** ** Further databases of the scenarios *)

Module Examples.

(** The ledger after the escrow of 10,000 was created, and after its
    condition was fulfilled. *)
Definition db_active : Db := run Scenario.db0 [Scenario.create None].








(** The ledger after an M-Pesa payout of 1,000 from wallet A was accepted by
    the provider, the payout it recorded and the wallet it debited. *)
Definition db_pending_payout : Db :=
  snd (handle Scenario.db0
         (CreatePayout "payer" "p1" "A"
            (Some (PayoutController.mkDestination "mpesa" (Some "254700000000") None None))
            1000 None (Ok "ws_CO_1"))).

Definition pending_payout : TransactionModel.Transaction :=
  TransactionModel.mkTransaction "payout_p1" "payout" "pending" (1000 + 1000 * 0.015)
    (TransactionModel.mkFees (1000 * 0.015) 0 (1000 * 0.015 + 0))
    (1000 + 1000 * 0.015 - (1000 * 0.015 + 0))
    (Some "A") None (Some "payer") None 0.

Definition debited_payer : WalletModel.Wallet :=
  WalletModel.mkWallet "A" "user" "payer" "KES"
    (WalletModel.mkBalances (15000 - (1000 + 1000 * 0.015)) 0 0).

End Examples.

(** * Properties *)

(** ** Comparisons on numbers *)

Lemma geb_spec (x y : Q) : JS.geb x y = true <-> (y <= x)%Q.
Proof. unfold JS.geb. apply Qle_bool_iff. Qed.

Lemma geb_false (x y : Q) : JS.geb x y = false <-> (x < y)%Q.
Proof.
  unfold JS.geb. split; intros H.
  - apply Qnot_le_lt. intros Hle. apply Qle_bool_iff in Hle. congruence.
  - destruct (Qle_bool y x) eqn:E; [|reflexivity].
    apply Qle_bool_iff in E. exfalso. eapply Qlt_not_le; eauto.
Qed.

Lemma ltb_spec (x y : Q) : JS.ltb x y = true <-> (x < y)%Q.
Proof.
  unfold JS.ltb. rewrite negb_true_iff. apply (geb_false x y).
Qed.

Lemma ltb_false (x y : Q) : JS.ltb x y = false <-> (y <= x)%Q.
Proof.
  unfold JS.ltb. rewrite negb_false_iff. apply Qle_bool_iff.
Qed.

(** ** The ledger primitives *)

Section Primitives.

Import WalletModel.

Variable w : Wallet.
Variable amount : Q.





Lemma releaseFunds_is_unlockFunds : releaseFunds w amount = unlockFunds w amount.
Proof. reflexivity. Qed.



End Primitives.



(** ** Saving documents *)

(** Case analysis on the next [match], [if] or destructuring [let] of the
    goal, keeping the equation. *)
Ltac branch :=
  match goal with
  | |- context [match ?x with _ => _ end] =>
      lazymatch x with
      | context [match _ with _ => _ end] => fail
      | _ => destruct x eqn:?
      end
  end.

Lemma wallet_call_frame m doc a db doc' db' :
  wallet_call m doc a db = Ok (doc', db') ->
  transactions db' = transactions db /\ escrows db' = escrows db.
Proof.
  unfold wallet_call. destruct (WalletModel.run m doc a (wallets db)) as [[d ws]|] eqn:E;
    [|discriminate].
  intros H. inversion H; subst. split; reflexivity.
Qed.

Lemma findOrCreateWallet_frame db u o i w db' :
  CollectionsController.findOrCreateWallet db u o i = (w, db') ->
  transactions db' = transactions db /\ escrows db' = escrows db.
Proof.
  unfold CollectionsController.findOrCreateWallet.
  destruct (find _ _); intros H; inversion H; subst; split; reflexivity.
Qed.

Lemma transaction_save_eq d db :
  transaction_save d db =
  (TransactionModel.mkDoc
     (TransactionModel.pre_save (TransactionModel.fees_modified d) (TransactionModel.data d))
     false,
   set_transactions db
     (<[TransactionModel.transaction_id
          (TransactionModel.pre_save (TransactionModel.fees_modified d)
                                     (TransactionModel.data d))
        := TransactionModel.pre_save (TransactionModel.fees_modified d)
                                     (TransactionModel.data d)]> (transactions db))).
Proof. reflexivity. Qed.

Lemma pre_save_recomputes (t : TransactionModel.Transaction) :
  fee_invariant (TransactionModel.pre_save true t).
Proof. unfold fee_invariant. simpl. split; reflexivity. Qed.

Lemma pre_save_consistent d :
  doc_consistent d ->
  fee_invariant (TransactionModel.pre_save (TransactionModel.fees_modified d)
                                           (TransactionModel.data d)).
Proof.
  intros [H|H].
  - rewrite H. apply pre_save_recomputes.
  - destruct (TransactionModel.fees_modified d); [apply pre_save_recomputes|exact H].
Qed.

Lemma transaction_save_consistent d db d' db' :
  transaction_save d db = (d', db') ->
  doc_consistent d -> fees_consistent db ->
  fees_consistent db' /\ doc_consistent d'.
Proof.
  rewrite transaction_save_eq. intros H Hd Hdb. inversion H; subst; clear H.
  pose proof (pre_save_consistent d Hd) as Hp.
  split.
  - unfold fees_consistent. simpl. apply map_Forall_insert_2; assumption.
  - right. exact Hp.
Qed.

Lemma set_status_consistent d st :
  doc_consistent d -> doc_consistent (TransactionModel.set_status d st).
Proof. intros [H|H]; [left|right]; exact H. Qed.

Lemma set_failure_reason_consistent d msg :
  doc_consistent d -> doc_consistent (TransactionModel.set_failure_reason d msg).
Proof. intros [H|H]; [left|right]; exact H. Qed.

Lemma construct_consistent id ty st amt p q r net src dst usr :
  doc_consistent
    (TransactionModel.construct id ty st amt (TransactionModel.mkFeesInput (Some p) q r)
                                net src dst usr).
Proof. left. reflexivity. Qed.

Lemma wallet_call_consistent m doc a db doc' db' :
  wallet_call m doc a db = Ok (doc', db') ->
  fees_consistent db -> fees_consistent db'.
Proof.
  intros H. apply wallet_call_frame in H as [Ht _]. unfold fees_consistent.
  rewrite Ht. auto.
Qed.

Lemma escrow_save_consistent e db :
  fees_consistent db -> fees_consistent (escrow_save e db).
Proof. auto. Qed.

Lemma findOrCreateWallet_consistent db u o i w db' :
  CollectionsController.findOrCreateWallet db u o i = (w, db') ->
  fees_consistent db -> fees_consistent db'.
Proof.
  intros H. apply findOrCreateWallet_frame in H as [Ht _]. unfold fees_consistent.
  rewrite Ht. auto.
Qed.

Create HintDb fees.
#[local] Hint Resolve set_status_consistent set_failure_reason_consistent
  construct_consistent escrow_save_consistent : fees.

(** Push the invariant through the saves recorded in the context. *)
Ltac fees_forward :=
  repeat match goal with
    | H : transaction_save ?d ?db = (?d', ?db') |- _ =>
        let Hd := fresh "Hdoc" in
        let Hi := fresh "Hinv" in
        assert (fees_consistent db' /\ doc_consistent d') as [Hi Hd]
          by (apply (transaction_save_consistent _ _ _ _ H); eauto 6 with fees);
        clear H
    | H : wallet_call _ _ _ ?db = Ok (_, ?db') |- _ =>
        let Hi := fresh "Hinv" in
        assert (fees_consistent db') as Hi
          by (apply (wallet_call_consistent _ _ _ _ _ _ H); eauto with fees);
        clear H
    | H : CollectionsController.findOrCreateWallet ?db _ _ _ = (_, ?db') |- _ =>
        let Hi := fresh "Hinv" in
        assert (fees_consistent db') as Hi
          by (apply (findOrCreateWallet_consistent _ _ _ _ _ _ H); eauto with fees);
        clear H
    end.

Ltac fees_solve :=
  repeat (branch; cbn [snd]); fees_forward; eauto 6 with fees.

Lemma createEscrow_consistent db u e t b :
  fees_consistent db -> fees_consistent (snd (EscrowController.createEscrow db u e t b)).
Proof.
  intros Hdb. unfold EscrowController.createEscrow. cbn [snd].
  fees_solve.
Qed.

Lemma load_consistent db id t :
  fees_consistent db -> transactions db !! id = Some t ->
  doc_consistent (TransactionModel.load t).
Proof. intros Hdb Hl. right. exact (Hdb id t Hl). Qed.

#[local] Hint Resolve load_consistent : fees.

Lemma fulfillCondition_consistent db u e c f :
  fees_consistent db -> fees_consistent (snd (EscrowController.fulfillCondition db u e c f)).
Proof. intros Hdb. unfold EscrowController.fulfillCondition. cbn [snd]. fees_solve. Qed.

Lemma releaseEscrow_consistent db u r e :
  fees_consistent db -> fees_consistent (snd (EscrowController.releaseEscrow db u r e)).
Proof. intros Hdb. unfold EscrowController.releaseEscrow. cbn [snd]. fees_solve. Qed.

Lemma refundEscrow_consistent db u r e w :
  fees_consistent db -> fees_consistent (snd (EscrowController.refundEscrow db u r e w)).
Proof. intros Hdb. unfold EscrowController.refundEscrow. cbn [snd]. fees_solve. Qed.

Lemma raiseDispute_consistent db u d e w s :
  fees_consistent db -> fees_consistent (snd (EscrowController.raiseDispute db u d e w s)).
Proof. intros Hdb. unfold EscrowController.raiseDispute. cbn [snd]. fees_solve. Qed.

Lemma fundWallet_consistent db u i w a c p m :
  fees_consistent db -> fees_consistent (snd (WalletController.fundWallet db u i w a c p m)).
Proof. intros Hdb. unfold WalletController.fundWallet. cbn [snd]. fees_solve. Qed.

Lemma withdrawFromWallet_consistent db u i w a p :
  fees_consistent db ->
  fees_consistent (snd (WalletController.withdrawFromWallet db u i w a p)).
Proof. intros Hdb. unfold WalletController.withdrawFromWallet. cbn [snd]. fees_solve. Qed.

Lemma transferFunds_consistent db u i a r c :
  fees_consistent db -> fees_consistent (snd (WalletController.transferFunds db u i a r c)).
Proof. intros Hdb. unfold WalletController.transferFunds. cbn [snd]. fees_solve. Qed.

Lemma processWalletPayout_consistent db a id st db' :
  PayoutService.processWalletPayout db a id = Ok (st, db') ->
  fees_consistent db -> fees_consistent db'.
Proof.
  unfold PayoutService.processWalletPayout.
  repeat branch; intros H Hdb; try discriminate.
  inversion H; subst. fees_forward. assumption.
Qed.

Lemma createPayout_consistent db u i s d a c b :
  fees_consistent db -> fees_consistent (snd (PayoutController.createPayout db u i s d a c b)).
Proof.
  intros Hdb. unfold PayoutController.createPayout. cbn [snd].
  repeat (branch; cbn [snd]); fees_forward;
    repeat match goal with
      | H : Ok _ = Ok _ |- _ => inversion H; subst; clear H
      | H : PayoutService.processWalletPayout _ _ _ = Ok _ |- _ =>
          apply processWalletPayout_consistent in H; [|assumption]
      end;
    fees_forward; eauto 6 with fees; try discriminate.
Qed.

Lemma createPayoutInternal_consistent db u p a s :
  fees_consistent db -> fees_consistent (PayoutController.createPayoutInternal db u p a s).
Proof.
  intros Hdb. unfold PayoutController.createPayoutInternal.
  repeat branch. fees_forward.
  rewrite transaction_save_eq. cbn [snd].
  apply map_Forall_insert_2; [|assumption].
  apply pre_save_consistent. auto with fees.
Qed.

Lemma cancelPayout_consistent db u p :
  fees_consistent db -> fees_consistent (snd (PayoutController.cancelPayout db u p)).
Proof. intros Hdb. unfold PayoutController.cancelPayout. cbn [snd]. fees_solve. Qed.

Lemma createCollection_consistent db u i w a p o :
  fees_consistent db ->
  fees_consistent (snd (CollectionsController.createCollection db u i w a p o)).
Proof.
  intros Hdb. unfold CollectionsController.createCollection. cbn [snd]. fees_solve.
Qed.

Lemma handle_consistent db r :
  fees_consistent db -> fees_consistent (snd (handle db r)).
Proof.
  intros Hdb. destruct r; cbn [handle snd];
    auto using createEscrow_consistent, fulfillCondition_consistent,
      releaseEscrow_consistent, refundEscrow_consistent, raiseDispute_consistent,
      fundWallet_consistent, withdrawFromWallet_consistent, transferFunds_consistent,
      createPayout_consistent, createPayoutInternal_consistent, cancelPayout_consistent,
      createCollection_consistent.
Qed.

Lemma run_consistent rs : forall db,
  fees_consistent db -> fees_consistent (run db rs).
Proof.
  induction rs as [|r rs IH]; intros db Hdb; [exact Hdb|].
  apply IH. apply handle_consistent. exact Hdb.
Qed.

(** ** Release settings of stored escrows *)

Lemma transaction_save_frame d db d' db' :
  transaction_save d db = (d', db') ->
  wallets db' = wallets db /\ escrows db' = escrows db.
Proof. rewrite transaction_save_eq. intros H. inversion H; subst. split; reflexivity. Qed.

Lemma escrow_save_settings e db :
  requires_all e -> all_require_all_conditions db ->
  all_require_all_conditions (escrow_save e db).
Proof.
  intros He Hdb. unfold all_require_all_conditions, escrow_save, EscrowModel.save. simpl.
  apply map_Forall_insert_2; assumption.
Qed.



Lemma stored_requires_all db id e :
  all_require_all_conditions db -> escrows db !! id = Some e -> requires_all e.
Proof. intros Hdb Hl. exact (Hdb id e Hl). Qed.

Lemma fulfillCondition_settings e c f e' :
  EscrowModel.fulfillCondition e c f = Ok e' ->
  EscrowModel.release_settings e' = EscrowModel.release_settings e.
Proof.
  unfold EscrowModel.fulfillCondition.
  repeat branch; intros H; inversion H; subst; reflexivity.
Qed.

Lemma fulfillCondition_requires_all e c f e' :
  EscrowModel.fulfillCondition e c f = Ok e' -> requires_all e -> requires_all e'.
Proof.
  intros H. unfold requires_all. rewrite (fulfillCondition_settings _ _ _ _ H). auto.
Qed.

Lemma release_requires_all e : requires_all e -> requires_all (EscrowModel.release e).
Proof. auto. Qed.

Lemma refund_requires_all e why : requires_all e -> requires_all (EscrowModel.refund e why).
Proof. auto. Qed.

Lemma fund_requires_all e : requires_all e -> requires_all (EscrowModel.fund e).
Proof. auto. Qed.

Lemma activate_requires_all e : requires_all e -> requires_all (EscrowModel.activate e).
Proof. auto. Qed.

Lemma raiseDispute_requires_all e i u w d :
  requires_all e -> requires_all (EscrowModel.raiseDispute e i u w d).
Proof. auto. Qed.

Lemma new_escrow_requires_all i t a c p q cs st ar ad f ds :
  requires_all (EscrowModel.mkEscrow i t a c p q cs st
                  (EscrowModel.mkReleaseSettings ar ad true) f ds).
Proof. reflexivity. Qed.


Create HintDb settings.
#[local] Hint Resolve escrow_save_settings stored_requires_all fulfillCondition_requires_all
  release_requires_all refund_requires_all fund_requires_all activate_requires_all
  raiseDispute_requires_all new_escrow_requires_all : settings.











Lemma processWalletPayout_frame db a id st db' :
  PayoutService.processWalletPayout db a id = Ok (st, db') ->
  transactions db' = transactions db /\ escrows db' = escrows db.
Proof.
  unfold PayoutService.processWalletPayout.
  repeat branch; intros H; try discriminate.
  inversion H; subst. eapply wallet_call_frame; eauto.
Qed.








(** ** Non-negative balances *)

#[local] Arguments Qplus : simpl never.
#[local] Arguments Qminus : simpl never.
#[local] Arguments Qmult : simpl never.
#[local] Arguments Qopp : simpl never.
#[local] Arguments Qle : simpl never.
#[local] Arguments Qlt : simpl never.
#[local] Arguments Qeq : simpl never.
#[local] Arguments Qle_bool : simpl never.
#[local] Arguments Qeq_bool : simpl never.

Lemma lockFunds_nonneg : preserves_nonneg WalletModel.lockFunds.
Proof.
  intros w a w' (Ha & Hl & Hp) H0. unfold WalletModel.lockFunds, WalletModel.hasSufficientFunds.
  destruct (JS.geb _ _) eqn:E; simpl; [|discriminate].
  apply geb_spec in E. intros H; inversion H; subst.
  unfold nonneg_wallet, nonneg_balances. simpl. repeat split; lra.
Qed.

Lemma unlockFunds_nonneg : preserves_nonneg WalletModel.unlockFunds.
Proof.
  intros w a w' (Ha & Hl & Hp) H0. unfold WalletModel.unlockFunds.
  destruct (JS.ltb _ _) eqn:E; [discriminate|].
  apply ltb_false in E. intros H; inversion H; subst.
  unfold nonneg_wallet, nonneg_balances. simpl. repeat split; lra.
Qed.

Lemma releaseFunds_nonneg : preserves_nonneg WalletModel.releaseFunds.
Proof. exact unlockFunds_nonneg. Qed.

Lemma deductFunds_nonneg : preserves_nonneg WalletModel.deductFunds.
Proof.
  intros w a w' (Ha & Hl & Hp) H0. unfold WalletModel.deductFunds.
  destruct (JS.ltb _ _) eqn:E; [discriminate|].
  apply ltb_false in E. intros H; inversion H; subst.
  unfold nonneg_wallet, nonneg_balances. simpl. repeat split; lra.
Qed.

Lemma addFunds_nonneg : preserves_nonneg WalletModel.addFunds.
Proof.
  intros w a w' (Ha & Hl & Hp) H0. unfold WalletModel.addFunds.
  intros H; inversion H; subst.
  unfold nonneg_wallet, nonneg_balances. simpl. repeat split; lra.
Qed.

Lemma write_path_nonneg s n st :
  (0 <= n)%Q -> (0 <= st)%Q -> (0 <= WalletModel.write_path s n st)%Q.
Proof. intros. unfold WalletModel.write_path. destruct (Qeq_bool s n); assumption. Qed.

Lemma save_nonneg snapshot doc (ws : gmap string WalletModel.Wallet) :
  nonneg_wallet doc ->
  map_Forall (fun _ w => nonneg_wallet w) ws ->
  map_Forall (fun _ w => nonneg_wallet w) (WalletModel.save snapshot doc ws).
Proof.
  intros (Ha & Hl & Hp) Hws k w. unfold WalletModel.save.
  destruct (decide (WalletModel.wallet_id doc = k)) as [->|Hne].
  - rewrite lookup_alter_eq. destruct (ws !! k) as [st|] eqn:E; simpl; [|discriminate].
    intros H; inversion H; subst. destruct (Hws _ _ E) as (Ha' & Hl' & Hp').
    unfold nonneg_wallet, nonneg_balances. simpl.
    repeat split; apply write_path_nonneg; assumption.
  - rewrite lookup_alter_ne by assumption. apply Hws.
Qed.

Lemma wallet_call_money m doc a db doc' db' :
  wallet_call m doc a db = Ok (doc', db') ->
  preserves_nonneg m -> money_inv db -> nonneg_wallet doc -> (0 <= a)%Q ->
  money_inv db' /\ nonneg_wallet doc'.
Proof.
  unfold wallet_call, WalletModel.run. destruct (m doc a) as [d|] eqn:E; [|discriminate].
  intros H Hm [Hw Hr] Hdoc Ha. inversion H; subst; clear H.
  pose proof (Hm _ _ _ Hdoc Ha E) as Hd.
  split; [split|]; [|exact Hr|exact Hd].
  unfold wallets_nonneg. simpl. apply save_nonneg; assumption.
Qed.

Lemma set_transactions_money db k t :
  money_inv db -> txn_nonneg t ->
  money_inv (set_transactions db (<[k := t]> (transactions db))).
Proof.
  intros [Hw [Ht He]] Hk. split; [exact Hw|]. split; [|exact He].
  simpl. apply map_Forall_insert_2; assumption.
Qed.

Lemma escrow_save_money e db :
  money_inv db -> escrow_nonneg e -> money_inv (escrow_save e db).
Proof.
  intros [Hw [Ht He]] Hk. split; [exact Hw|]. split; [exact Ht|].
  unfold escrow_save, EscrowModel.save. simpl. apply map_Forall_insert_2; assumption.
Qed.

Lemma stored_wallet_nonneg db id w :
  money_inv db -> wallets db !! id = Some w -> nonneg_wallet w.
Proof. intros [Hw _] Hl. exact (Hw id w Hl). Qed.

Lemma stored_txn_nonneg db id t :
  money_inv db -> transactions db !! id = Some t -> txn_nonneg t.
Proof. intros [_ [Ht _]] Hl. exact (Ht id t Hl). Qed.

Lemma stored_escrow_nonneg db id e :
  money_inv db -> escrows db !! id = Some e -> escrow_nonneg e.
Proof. intros [_ [_ He]] Hl. exact (He id e Hl). Qed.

Lemma find_owned_lookup db id u w :
  WalletController.find_owned db id u = Some w -> wallets db !! id = Some w.
Proof.
  unfold WalletController.find_owned. destruct (wallets db !! id) as [x|]; [|discriminate].
  destruct (String.eqb _ _); [|discriminate]. congruence.
Qed.

Lemma find_by_owner_currency_lookup db u c w :
  WalletController.find_by_owner_currency db u c = Some w ->
  exists id, wallets db !! id = Some w.
Proof.
  unfold WalletController.find_by_owner_currency.
  destruct (find _ _) as [[k x]|] eqn:E; [|discriminate].
  intros H; inversion H; subst; clear H.
  apply find_some in E as [Hin _].
  exists k. apply elem_of_map_to_list. apply list_elem_of_In. exact Hin.
Qed.

Lemma fulfillCondition_amounts e c f e' :
  EscrowModel.fulfillCondition e c f = Ok e' ->
  EscrowModel.amount e' = EscrowModel.amount e /\ EscrowModel.fees e' = EscrowModel.fees e.
Proof.
  unfold EscrowModel.fulfillCondition.
  repeat branch; intros H; inversion H; subst; split; reflexivity.
Qed.

Lemma selectPaymentRail_fee_nonneg d a c :
  (0 <= a)%Q -> (0 <= PayoutController.fee (PayoutController.selectPaymentRail d a c))%Q.
Proof.
  intros Ha. unfold PayoutController.selectPaymentRail.
  repeat branch; simpl; lra.
Qed.

Lemma findOrCreateWallet_money db u o i w db' :
  CollectionsController.findOrCreateWallet db u o i = (w, db') ->
  money_inv db -> money_inv db' /\ nonneg_wallet w.
Proof.
  unfold CollectionsController.findOrCreateWallet.
  destruct (find _ _) as [[k x]|] eqn:E; intros H [Hw Hr]; inversion H; subst; clear H.
  - split; [split; assumption|].
    apply find_some in E as [Hin _].
    apply list_elem_of_In, elem_of_map_to_list in Hin. exact (Hw _ _ Hin).
  - assert (Hz : nonneg_wallet
                   (WalletModel.mkWallet ("wallet_" ++ i) o u "KES"
                                         (WalletModel.mkBalances 0 0 0))).
    { unfold nonneg_wallet, nonneg_balances. simpl. repeat split; lra. }
    split; [split; [|exact Hr]|exact Hz].
    unfold wallets_nonneg. simpl. apply map_Forall_insert_2; assumption.
Qed.

Create HintDb money.
#[local] Hint Resolve lockFunds_nonneg unlockFunds_nonneg releaseFunds_nonneg
  deductFunds_nonneg addFunds_nonneg : money.

(** Arithmetic side conditions: unfold the predicates, compute the record
    projections and leave a linear problem. *)
Ltac money_arith :=
  unfold txn_nonneg, escrow_nonneg, nonneg_wallet, nonneg_balances in *;
  repeat match goal with
    | H : _ /\ _ |- _ => destruct H
    end;
  simpl; repeat split; lra.

(** The invariant of a database that is a saved escrow away from one whose
    invariant is known. *)
Ltac money_db :=
  lazymatch goal with
  | |- money_inv (escrow_save _ _) => apply escrow_save_money; [money_db | money_arith]
  | |- money_inv _ => assumption
  end.

Ltac known_db D :=
  lazymatch D with
  | escrow_save _ ?D' => known_db D'
  | _ => match goal with H : money_inv D |- _ => idtac end
  end.

(** What the invariant says of the documents read from the store. *)
Ltac money_facts :=
  repeat match goal with
    | H : WalletController.find_owned _ _ _ = Some _ |- _ =>
        apply find_owned_lookup in H
    | H : WalletController.find_by_owner_currency _ _ _ = Some _ |- _ =>
        apply find_by_owner_currency_lookup in H as [? H]
    | H : EscrowModel.fulfillCondition _ _ _ = Ok _ |- _ =>
        apply fulfillCondition_amounts in H as [? ?]
    | Hi : money_inv ?db, H : wallets ?db !! _ = Some _ |- _ =>
        apply (stored_wallet_nonneg _ _ _ Hi) in H
    | Hi : money_inv ?db, H : transactions ?db !! _ = Some _ |- _ =>
        apply (stored_txn_nonneg _ _ _ Hi) in H
    | Hi : money_inv ?db, H : escrows ?db !! _ = Some _ |- _ =>
        apply (stored_escrow_nonneg _ _ _ Hi) in H
    end.

Lemma transaction_save_money d db d' db' :
  transaction_save d db = (d', db') ->
  money_inv db ->
  txn_nonneg (TransactionModel.pre_save (TransactionModel.fees_modified d)
                                        (TransactionModel.data d)) ->
  money_inv db'.
Proof.
  rewrite transaction_save_eq. intros H Hdb Ht. inversion H; subst; clear H.
  apply set_transactions_money; assumption.
Qed.

Lemma transaction_save_doc d db d' db' :
  transaction_save d db = (d', db') ->
  d' = TransactionModel.mkDoc
         (TransactionModel.pre_save (TransactionModel.fees_modified d)
                                    (TransactionModel.data d)) false.
Proof. rewrite transaction_save_eq. intros H. inversion H; subst. reflexivity. Qed.

Ltac money_step :=
  match goal with
  | H : transaction_save _ ?db = (?d', ?db') |- _ =>
      known_db db;
      let Hi := fresh "Hinv" in
      assert (money_inv db') as Hi
        by (apply (transaction_save_money _ _ _ _ H); [money_db | money_arith]);
      apply transaction_save_doc in H; subst d'
  | H : wallet_call ?m ?doc ?a ?db = Ok (?doc', ?db') |- _ =>
      known_db db;
      let Hi := fresh "Hinv" in
      let Hd := fresh "Hdoc" in
      assert (money_inv db' /\ nonneg_wallet doc') as [Hi Hd]
        by (apply (wallet_call_money _ _ _ _ _ _ H);
            [auto with money | money_db | assumption | money_arith]);
      clear H
  | H : CollectionsController.findOrCreateWallet ?db _ _ _ = (?w, ?db') |- _ =>
      known_db db;
      let Hi := fresh "Hinv" in
      let Hd := fresh "Hdoc" in
      assert (money_inv db' /\ nonneg_wallet w) as [Hi Hd]
        by (apply (findOrCreateWallet_money _ _ _ _ _ _ H); money_db);
      clear H
  end.

Ltac money_forward := repeat (money_facts; money_step); money_facts.

Ltac money_solve :=
  repeat (branch; cbn [snd]); money_forward; money_db.

Lemma createEscrow_money db u e t b :
  money_inv db -> (0 <= EscrowController.amount b)%Q ->
  money_inv (snd (EscrowController.createEscrow db u e t b)).
Proof.
  intros Hdb Ha. unfold EscrowController.createEscrow. cbn [snd]. money_solve.
Qed.

Lemma fulfillCondition_money db u e c f :
  money_inv db -> money_inv (snd (EscrowController.fulfillCondition db u e c f)).
Proof.
  intros Hdb. unfold EscrowController.fulfillCondition. cbn [snd].
  repeat (branch; cbn [snd]); money_forward; try money_db.
  apply escrow_save_money; [assumption|].
  unfold escrow_nonneg in *. congruence.
Qed.

Lemma releaseEscrow_money db u r e :
  money_inv db -> money_inv (snd (EscrowController.releaseEscrow db u r e)).
Proof. intros Hdb. unfold EscrowController.releaseEscrow. cbn [snd]. money_solve. Qed.

Lemma refundEscrow_money db u r e w :
  money_inv db -> money_inv (snd (EscrowController.refundEscrow db u r e w)).
Proof. intros Hdb. unfold EscrowController.refundEscrow. cbn [snd]. money_solve. Qed.

Lemma raiseDispute_money db u d e w s :
  money_inv db -> money_inv (snd (EscrowController.raiseDispute db u d e w s)).
Proof. intros Hdb. unfold EscrowController.raiseDispute. cbn [snd]. money_solve. Qed.

Lemma fundWallet_money db u i w a c p m :
  money_inv db -> (0 <= a)%Q ->
  money_inv (snd (WalletController.fundWallet db u i w a c p m)).
Proof. intros Hdb Ha. unfold WalletController.fundWallet. cbn [snd]. money_solve. Qed.

Lemma withdrawFromWallet_money db u i w a p :
  money_inv db -> (0 <= a)%Q ->
  money_inv (snd (WalletController.withdrawFromWallet db u i w a p)).
Proof. intros Hdb Ha. unfold WalletController.withdrawFromWallet. cbn [snd]. money_solve. Qed.

Lemma transferFunds_money db u i a r c :
  money_inv db -> (0 <= a)%Q ->
  money_inv (snd (WalletController.transferFunds db u i a r c)).
Proof. intros Hdb Ha. unfold WalletController.transferFunds. cbn [snd]. money_solve. Qed.

Lemma processWalletPayout_money db a id st db' :
  PayoutService.processWalletPayout db a id = Ok (st, db') ->
  money_inv db -> (0 <= a)%Q -> money_inv db'.
Proof.
  unfold PayoutService.processWalletPayout.
  repeat branch; intros H Hdb Ha; try discriminate.
  inversion H; subst. money_forward. assumption.
Qed.

Lemma createPayout_money db u i s d a c b :
  money_inv db -> (0 <= a)%Q ->
  money_inv (snd (PayoutController.createPayout db u i s d a c b)).
Proof.
  intros Hdb Ha. unfold PayoutController.createPayout. cbn [snd].
  repeat (branch; cbn [snd]);
    try match goal with
      | d0 : PayoutController.Destination |- _ =>
          pose proof (selectPaymentRail_fee_nonneg d0 a (PayoutController.currency_or_KES c) Ha)
      end;
    money_forward;
    repeat match goal with
      | H : Ok _ = Ok _ |- _ => inversion H; subst; clear H
      | H : Throw _ = Ok _ |- _ => discriminate H
      | H : PayoutService.processWalletPayout ?db ?x _ = Ok _, Hle : (0 <= ?x)%Q |- _ =>
          apply processWalletPayout_money in H; [|money_db|exact Hle]
      end;
    money_forward; try money_db.
  all: match goal with
       | H : PayoutService.processWalletPayout ?db ?x _ = Ok _ |- _ =>
           apply processWalletPayout_money in H; [|money_db|]
       end.
  all: money_forward; try money_db.
  all: match goal with
       | H : (PayoutController.type _ =? "wallet") = true |- _ =>
           unfold PayoutController.selectPaymentRail; rewrite H; simpl; lra
       end.
Qed.

Lemma createPayoutInternal_money db u p a s :
  money_inv db -> (0 <= a)%Q ->
  money_inv (PayoutController.createPayoutInternal db u p a s).
Proof.
  intros Hdb Ha. unfold PayoutController.createPayoutInternal.
  repeat branch. money_forward.
  rewrite transaction_save_eq. cbn [snd].
  apply set_transactions_money; [assumption|money_arith].
Qed.

Lemma cancelPayout_money db u p :
  money_inv db -> money_inv (snd (PayoutController.cancelPayout db u p)).
Proof. intros Hdb. unfold PayoutController.cancelPayout. cbn [snd]. money_solve. Qed.

Lemma createCollection_money db u i w a p o :
  money_inv db -> (0 <= a)%Q ->
  money_inv (snd (CollectionsController.createCollection db u i w a p o)).
Proof.
  intros Hdb Ha. unfold CollectionsController.createCollection. cbn [snd]. money_solve.
Qed.

Lemma handle_money db r :
  money_inv db -> amount_nonneg r -> money_inv (snd (handle db r)).
Proof.
  intros Hdb Ha. destruct r; cbn [handle snd]; unfold amount_nonneg in Ha; simpl in Ha;
    auto using createEscrow_money, fulfillCondition_money, releaseEscrow_money,
      refundEscrow_money, raiseDispute_money, fundWallet_money, withdrawFromWallet_money,
      transferFunds_money, createPayout_money, createPayoutInternal_money,
      cancelPayout_money, createCollection_money.
Qed.

Lemma run_money rs : forall db,
  money_inv db -> Forall amount_nonneg rs -> money_inv (run db rs).
Proof.
  induction rs as [|r rs IH]; intros db Hdb Hrs; [exact Hdb|].
  inversion Hrs; subst. apply IH; [|assumption]. apply handle_money; assumption.
Qed.

(** ** Non-negativity of balances (C4) *)

Lemma scenario_db0_money : money_inv Scenario.db0.
Proof.
  split; [|split; apply map_Forall_empty].
  unfold wallets_nonneg, Scenario.db0. simpl.
  apply map_Forall_insert_2; [|apply map_Forall_insert_2; [|apply map_Forall_empty]];
    unfold nonneg_balances; simpl; repeat split; lra.
Qed.

(** C4.  Non-negativity.  Starting from a database whose wallets have
    non-negative balances (and whose stored transactions and escrows carry
    non-negative amounts), after any sequence of requests to the escrow,
    wallet, payout and collection handlers that carry non-negative amounts
    every wallet still has [available], [locked] and [pending] non-negative;
    and each ledger primitive called with a non-negative amount on a
    non-negative wallet returns, when it returns, a non-negative wallet. *)
Theorem balances_never_negative (db : Db) (rs : list Request)
        (w : WalletModel.Wallet) (amount : Q) :
  wallets_nonneg db -> records_nonneg db -> Forall amount_nonneg rs ->
  nonneg_balances (WalletModel.balances w) -> (0 <= amount)%Q ->
  wallets_nonneg (run db rs)
  /\ (forall w', WalletModel.lockFunds w amount = Ok w' ->
                 nonneg_balances (WalletModel.balances w'))
  /\ (forall w', WalletModel.unlockFunds w amount = Ok w' ->
                 nonneg_balances (WalletModel.balances w'))
  /\ (forall w', WalletModel.releaseFunds w amount = Ok w' ->
                 nonneg_balances (WalletModel.balances w'))
  /\ (forall w', WalletModel.deductFunds w amount = Ok w' ->
                 nonneg_balances (WalletModel.balances w'))
  /\ (forall w', WalletModel.addFunds w amount = Ok w' ->
                 nonneg_balances (WalletModel.balances w')).
Proof.
  intros Hw Hr Hrs Hbal Ha.
  split; [exact (proj1 (run_money rs db (conj Hw Hr) Hrs))|].
  refine (conj _ (conj _ (conj _ (conj _ _)))); intros w' H.
  - exact (lockFunds_nonneg w amount w' Hbal Ha H).
  - exact (unlockFunds_nonneg w amount w' Hbal Ha H).
  - exact (releaseFunds_nonneg w amount w' Hbal Ha H).
  - exact (deductFunds_nonneg w amount w' Hbal Ha H).
  - exact (addFunds_nonneg w amount w' Hbal Ha H).
Qed.

Lemma balances_never_negative_witness :
  wallets_nonneg (run Scenario.db0 [Scenario.create None; Scenario.fulfill; Scenario.release]).
Proof.
  refine (proj1 (balances_never_negative Scenario.db0
                   [Scenario.create None; Scenario.fulfill; Scenario.release]
                   Scenario.walletA 10000 _ _ _ _ _)).
  - exact (proj1 scenario_db0_money).
  - exact (proj2 scenario_db0_money).
  - repeat constructor; unfold amount_nonneg; simpl; lra.
  - unfold nonneg_balances; simpl; repeat split; lra.
  - lra.
Defined.

(** ** The fee invariant of stored transactions (C5) *)

(** C5.  Fee invariant.  Saving a transaction whose fee sub-fields were
    set recomputes [total_fee] and [net_amount] before the record is stored,
    and the stored record satisfies [total_fee = processing_fee +
    platform_fee] and [net_amount = amount - total_fee]; and in every
    database reached from a consistent one through the escrow, wallet,
    payout and collection handlers, every stored transaction satisfies both
    equations. *)
Theorem transaction_fee_invariant (db : Db) (rs : list Request) (id : string)
        (t : TransactionModel.Transaction) (d : TransactionModel.Doc)
        (ts : gmap string TransactionModel.Transaction) :
  fees_consistent db ->
  transactions (run db rs) !! id = Some t ->
  TransactionModel.fees_modified d = true ->
  fee_invariant t
  /\ (let stored := TransactionModel.data (fst (TransactionModel.save d ts)) in
      snd (TransactionModel.save d ts) !! TransactionModel.transaction_id stored = Some stored
      /\ fee_invariant stored).
Proof.
  intros Hdb Hl Hd. split.
  - exact (run_consistent rs db Hdb id t Hl).
  - cbv zeta. unfold TransactionModel.save. cbn [fst snd TransactionModel.data].
    split; [apply lookup_insert_eq|].
    rewrite Hd. apply pre_save_recomputes.
Qed.

Lemma transaction_fee_invariant_witness :
  fee_invariant Scenario.hold_transaction.
Proof.
  refine (proj1 (transaction_fee_invariant Scenario.db0
                   [Scenario.create None; Scenario.fulfill] "txn_t1"
                   Scenario.hold_transaction
                   (TransactionModel.construct "x" "payout" "pending" 1
                      (TransactionModel.mkFeesInput (Some 0%Q) None None) 1 None None None)
                   ∅ _ _ _)).
  - exact (map_Forall_empty _).
  - vm_compute. reflexivity.
  - reflexivity.
Defined.

(** ** Release settings of escrows created through the interface (C10) *)






(** ** Rail selection (C6) *)

Lemma selectPaymentRail_proper d (a a' : Q) c :
  (a == a')%Q ->
  PayoutController.rail (PayoutController.selectPaymentRail d a c)
  = PayoutController.rail (PayoutController.selectPaymentRail d a' c)
  /\ (PayoutController.fee (PayoutController.selectPaymentRail d a c)
      == PayoutController.fee (PayoutController.selectPaymentRail d a' c))%Q
  /\ PayoutController.instant (PayoutController.selectPaymentRail d a c)
     = PayoutController.instant (PayoutController.selectPaymentRail d a' c).
Proof.
  intros H. unfold PayoutController.selectPaymentRail, JS.ltb.
  rewrite (Qleb_comp _ _ H _ _ (Qeq_refl 250000)).
  rewrite (Qleb_comp _ _ (Qeq_refl 999999) _ _ H).
  repeat branch; simpl; repeat split; try reflexivity.
  rewrite H. reflexivity.
Qed.

(** C6.  Rail selection.  [selectPaymentRail] is a function of the
    destination type, the amount and the currency alone: wallet gives
    internal, fee 0, instant; mpesa gives mpesa_b2c with fee 1.5% of the
    amount, instant, up to 250,000 and mpesa_corporate, fee 100, not instant,
    above; bank gives pesalink, fee 50, instant, for KES below 999,999 and
    rtgs, fee 150, not instant, otherwise; any other type gives unknown, fee
    0, not instant.  At 250,000 the M-Pesa fee is 3750 and at 250,001 it is
    100; destinations of the same type are routed alike, and equal amounts
    give the same rail and flag and equal fees. *)
Theorem rail_selection (destination : PayoutController.Destination) (amount : Q)
        (currency : string) :
  let select := PayoutController.selectPaymentRail destination amount currency in
  let ty := PayoutController.type destination in
  let mpesa := PayoutController.mkDestination "mpesa" None None None in
  (ty = "wallet" -> select = PayoutController.mkRouting "internal" 0 true)
  /\ (ty = "mpesa" -> (amount <= 250000)%Q ->
      select = PayoutController.mkRouting "mpesa_b2c" (amount * 0.015) true)
  /\ (ty = "mpesa" -> ~ (amount <= 250000)%Q ->
      select = PayoutController.mkRouting "mpesa_corporate" 100 false)
  /\ (ty = "bank" -> currency = "KES" -> (amount < 999999)%Q ->
      select = PayoutController.mkRouting "pesalink" 50 true)
  /\ (ty = "bank" -> ~ (currency = "KES" /\ (amount < 999999)%Q) ->
      select = PayoutController.mkRouting "rtgs" 150 false)
  /\ (ty <> "wallet" -> ty <> "mpesa" -> ty <> "bank" ->
      select = PayoutController.mkRouting "unknown" 0 false)
  /\ (PayoutController.rail (PayoutController.selectPaymentRail mpesa 250000 currency)
      = "mpesa_b2c"
      /\ (PayoutController.fee (PayoutController.selectPaymentRail mpesa 250000 currency)
          == 3750)%Q
      /\ PayoutController.instant (PayoutController.selectPaymentRail mpesa 250000 currency)
         = true)
  /\ PayoutController.selectPaymentRail mpesa 250001 currency
     = PayoutController.mkRouting "mpesa_corporate" 100 false
  /\ (forall destination',
      PayoutController.type destination' = ty ->
      PayoutController.selectPaymentRail destination' amount currency = select)
  /\ (forall amount', (amount == amount')%Q ->
      PayoutController.rail select
      = PayoutController.rail (PayoutController.selectPaymentRail destination amount' currency)
      /\ (PayoutController.fee select
          == PayoutController.fee
               (PayoutController.selectPaymentRail destination amount' currency))%Q
      /\ PayoutController.instant select
         = PayoutController.instant
             (PayoutController.selectPaymentRail destination amount' currency)).
Proof.
  cbv zeta. unfold PayoutController.selectPaymentRail.
  refine (conj _ (conj _ (conj _ (conj _ (conj _ (conj _ (conj _ (conj _ (conj _ _))))))))).
  - intros ->. reflexivity.
  - intros -> H. apply Qle_bool_iff in H. rewrite H. reflexivity.
  - intros -> H. simpl. destruct (Qle_bool amount 250000) eqn:E; [|reflexivity].
    apply Qle_bool_iff in E. contradiction.
  - intros -> -> H. apply ltb_spec in H. rewrite H. reflexivity.
  - intros -> H. simpl.
    destruct (String.eqb currency "KES") eqn:Ec; [|reflexivity].
    destruct (JS.ltb amount 999999) eqn:El; [|reflexivity].
    apply String.eqb_eq in Ec. apply ltb_spec in El. exfalso. apply H. split; assumption.
  - intros Hw Hm Hb.
    apply String.eqb_neq in Hw, Hm, Hb. rewrite Hw, Hm, Hb. reflexivity.
  - simpl. repeat split; reflexivity.
  - reflexivity.
  - intros destination' ->. reflexivity.
  - intros amount' H. apply (selectPaymentRail_proper destination amount amount' currency H).
Qed.

Lemma rail_selection_witness :
  PayoutController.selectPaymentRail
    (PayoutController.mkDestination "bank" None (Some "0011223344") None) 5000 "KES"
  = PayoutController.mkRouting "pesalink" 50 true.
Proof.
  refine (proj1 (proj2 (proj2 (proj2
            (rail_selection
               (PayoutController.mkDestination "bank" None (Some "0011223344") None)
               5000 "KES")))) _ _ _).
  - reflexivity.
  - reflexivity.
  - reflexivity.
Defined.

(** ** Webhook retry (C9) *)

Lemma sendWebhook_unfold endpoint :
  WebhookService.sendWebhook endpoint =
  match endpoint 0 with
  | Ok st => Some (WebhookService.Delivered 1 st, [WebhookService.Post])
  | Throw _ =>
      match endpoint 1 with
      | Ok st =>
          Some (WebhookService.Delivered 2 st,
                [WebhookService.Post; WebhookService.Wait 5000; WebhookService.Post])
      | Throw _ =>
          match endpoint 2 with
          | Ok st =>
              Some (WebhookService.Delivered 3 st,
                    [WebhookService.Post; WebhookService.Wait 5000;
                     WebhookService.Post; WebhookService.Wait 15000;
                     WebhookService.Post])
          | Throw msg =>
              Some (WebhookService.Failed 3 msg,
                    [WebhookService.Post; WebhookService.Wait 5000;
                     WebhookService.Post; WebhookService.Wait 15000;
                     WebhookService.Post])
          end
      end
  end.
Proof.
  unfold WebhookService.sendWebhook, WebhookService.maxRetries. simpl.
  destruct (endpoint 0); [reflexivity|]. simpl.
  destruct (endpoint 1); [reflexivity|]. simpl.
  destruct (endpoint 2); reflexivity.
Qed.

(** C9.  Webhook retry.  [sendWebhook] always returns.  An endpoint that
    fails twice and then answers is reported delivered with [attempt = 3];
    an endpoint that always fails is reported failed with
    [totalAttempts = 3]; in both runs the loop posts three times, waits 5 s
    after the first failure and 15 s after the second, and does not wait
    after the third post.  Whatever the endpoint does, there is never a
    fourth post. *)
Theorem webhook_retry (endpoint : nat -> result nat) :
  let three_posts :=
    [WebhookService.Post; WebhookService.Wait 5000;
     WebhookService.Post; WebhookService.Wait 15000;
     WebhookService.Post] in
  (forall e0 e1 st,
      endpoint 0 = Throw e0 -> endpoint 1 = Throw e1 -> endpoint 2 = Ok st ->
      WebhookService.sendWebhook endpoint
      = Some (WebhookService.Delivered 3 st, three_posts))
  /\ ((forall n, exists msg, endpoint n = Throw msg) ->
      exists msg,
        endpoint 2 = Throw msg
        /\ WebhookService.sendWebhook endpoint
           = Some (WebhookService.Failed 3 msg, three_posts))
  /\ (exists outcome trace,
        WebhookService.sendWebhook endpoint = Some (outcome, trace)
        /\ WebhookService.posts trace <= 3).
Proof.
  cbv zeta. rewrite sendWebhook_unfold. split; [|split].
  - intros e0 e1 st H0 H1 H2. rewrite H0, H1, H2. reflexivity.
  - intros H. destruct (H 0) as [m0 H0]. destruct (H 1) as [m1 H1].
    destruct (H 2) as [m2 H2]. exists m2. rewrite H0, H1, H2. split; reflexivity.
  - destruct (endpoint 0);
      [eexists; eexists; split; [reflexivity|unfold WebhookService.posts; simpl; lia]|].
    destruct (endpoint 1);
      [eexists; eexists; split; [reflexivity|unfold WebhookService.posts; simpl; lia]|].
    destruct (endpoint 2); eexists; eexists;
      (split; [reflexivity|unfold WebhookService.posts; simpl; lia]).
Qed.

Lemma webhook_retry_witness :
  WebhookService.sendWebhook (fun n => if Nat.ltb n 2 then Throw "ECONNREFUSED" else Ok 200)
  = Some (WebhookService.Delivered 3 200,
          [WebhookService.Post; WebhookService.Wait 5000;
           WebhookService.Post; WebhookService.Wait 15000;
           WebhookService.Post]).
Proof.
  refine (proj1 (webhook_retry (fun n => if Nat.ltb n 2 then Throw "ECONNREFUSED" else Ok 200))
                "ECONNREFUSED" "ECONNREFUSED" 200 _ _ _).
  - reflexivity.
  - reflexivity.
  - reflexivity.
Defined.

(** ** Payout with a failing provider (C7) *)

Lemma write_path_fresh s n st : (st == s)%Q -> (WalletModel.write_path s n st == n)%Q.
Proof.
  intros H. unfold WalletModel.write_path. destruct (Qeq_bool s n) eqn:E; [|reflexivity].
  apply Qeq_bool_iff in E. rewrite H. exact E.
Qed.

Lemma save_lookup snapshot doc (ws : gmap string WalletModel.Wallet) st :
  ws !! WalletModel.wallet_id doc = Some st ->
  same_balances (WalletModel.balances st) (WalletModel.balances snapshot) ->
  exists st',
    WalletModel.save snapshot doc ws !! WalletModel.wallet_id doc = Some st'
    /\ same_balances (WalletModel.balances st') (WalletModel.balances doc)
    /\ WalletModel.wallet_id st' = WalletModel.wallet_id st
    /\ WalletModel.owner_id st' = WalletModel.owner_id st.
Proof.
  intros Hl (Ha & Hl' & Hp). unfold WalletModel.save. rewrite lookup_alter_eq, Hl. simpl.
  eexists. split; [reflexivity|]. simpl.
  repeat split; apply write_path_fresh; assumption.
Qed.



Lemma wallet_call_addFunds_ok w amount db :
  wallet_call WalletModel.addFunds w amount db =
  Ok (WalletModel.set_balances w
        (WalletModel.mkBalances (WalletModel.available (WalletModel.balances w) + amount)
                                (WalletModel.locked (WalletModel.balances w))
                                (WalletModel.pending (WalletModel.balances w))),
      set_wallets db
        (WalletModel.save w
           (WalletModel.set_balances w
              (WalletModel.mkBalances
                 (WalletModel.available (WalletModel.balances w) + amount)
                 (WalletModel.locked (WalletModel.balances w))
                 (WalletModel.pending (WalletModel.balances w))))
           (wallets db))).
Proof. reflexivity. Qed.

Lemma same_balances_refl b : same_balances b b.
Proof. repeat split; reflexivity. Qed.









(** ** Value moved by transfers, escrow creation and release *)

Lemma save_lookup_ne snapshot doc (ws : gmap string WalletModel.Wallet) k :
  k <> WalletModel.wallet_id doc -> WalletModel.save snapshot doc ws !! k = ws !! k.
Proof. intros H. unfold WalletModel.save. apply lookup_alter_ne. congruence. Qed.

Lemma wallet_call_inv m doc a db doc' db' :
  wallet_call m doc a db = Ok (doc', db') ->
  m doc a = Ok doc' /\ db' = set_wallets db (WalletModel.save doc doc' (wallets db)).
Proof.
  unfold wallet_call, WalletModel.run. destruct (m doc a) as [d|]; [|discriminate].
  intros H. inversion H; subst. split; reflexivity.
Qed.






Lemma save_lookup_at snapshot doc (ws : gmap string WalletModel.Wallet) k st :
  ws !! k = Some st -> WalletModel.wallet_id doc = k ->
  same_balances (WalletModel.balances st) (WalletModel.balances snapshot) ->
  exists st',
    WalletModel.save snapshot doc ws !! k = Some st'
    /\ same_balances (WalletModel.balances st') (WalletModel.balances doc).
Proof.
  intros Hl <- Hb. destruct (save_lookup snapshot doc ws st Hl Hb) as (st' & H & Hb' & _).
  exists st'. split; assumption.
Qed.





(** ** The escrow scenarios (C1, C2, C3) *)




(** ** The scenario values on doubles *)

(** On binary64 the fees and balances of the scenarios are the same numbers
    as on rationals: 2% of 10,000 is 200, the net amount is 9,800, the payer
    keeps 5,000, 1.5% of 250,000 is 3,750, 0.5% of 1,000 is 5 and the refund
    credit brings the payer to 25,000. *)
Lemma binary64_scenario_values :
  Binary64.escrow_fee 10000 = 200%float
  /\ PrimFloat.sub 10000 (Binary64.escrow_fee 10000) = 9800%float
  /\ PrimFloat.sub 15000 10000 = 5000%float
  /\ Binary64.processing_fee 250000 = 3750%float
  /\ Binary64.transfer_fee 1000 = 5%float
  /\ PrimFloat.add (PrimFloat.add 5000 10000) 10000 = 25000%float.
Proof. repeat split; reflexivity. Qed.

(** ** Documents stay under their own keys *)

Lemma save_well_keyed snapshot doc (ws : gmap string WalletModel.Wallet) :
  (forall k w, ws !! k = Some w -> WalletModel.wallet_id w = k) ->
  forall k w, WalletModel.save snapshot doc ws !! k = Some w -> WalletModel.wallet_id w = k.
Proof.
  intros Hws k w. unfold WalletModel.save.
  destruct (decide (WalletModel.wallet_id doc = k)) as [E|E].
  - rewrite E, lookup_alter_eq. destruct (ws !! k) as [st|] eqn:Hk; simpl; [|discriminate].
    intros H; inversion H; subst. simpl. exact (Hws _ _ Hk).
  - rewrite lookup_alter_ne by assumption. apply Hws.
Qed.

Lemma wallet_call_keyed m doc a db doc' db' :
  wallet_call m doc a db = Ok (doc', db') -> keyed db -> keyed db'.
Proof.
  intros H (Hw & He & Ht). apply wallet_call_inv in H as [_ ->].
  split; [|split; assumption].
  intros k w. cbn [wallets set_wallets]. apply save_well_keyed. exact Hw.
Qed.

Lemma transaction_save_keyed d db d' db' :
  transaction_save d db = (d', db') -> keyed db -> keyed db'.
Proof.
  rewrite transaction_save_eq. intros H (Hw & He & Ht). inversion H; subst; clear H.
  split; [exact Hw|]. split; [exact He|].
  intros k t. cbn [transactions set_transactions]. intros Hl.
  apply lookup_insert_Some in Hl as [[<- <-]|[_ Hl]]; [reflexivity|exact (Ht _ _ Hl)].
Qed.

Lemma escrow_save_keyed e db : keyed db -> keyed (escrow_save e db).
Proof.
  intros (Hw & He & Ht). split; [exact Hw|]. split; [|exact Ht].
  intros k x. unfold escrow_save, EscrowModel.save. cbn [escrows set_escrows]. intros Hl.
  apply lookup_insert_Some in Hl as [[<- <-]|[_ Hl]]; [reflexivity|exact (He _ _ Hl)].
Qed.

Lemma findOrCreateWallet_keyed db u o i w db' :
  CollectionsController.findOrCreateWallet db u o i = (w, db') -> keyed db -> keyed db'.
Proof.
  unfold CollectionsController.findOrCreateWallet.
  destruct (find _ _); intros H (Hw & He & Ht); inversion H; subst; clear H.
  - split; [|split]; assumption.
  - split; [|split; assumption].
    intros k x. cbn [wallets set_wallets WalletModel.wallet_id]. intros Hl.
    apply lookup_insert_Some in Hl as [[<- <-]|[_ Hl]]; [reflexivity|exact (Hw _ _ Hl)].
Qed.

Lemma processWalletPayout_keyed db a id st db' :
  PayoutService.processWalletPayout db a id = Ok (st, db') -> keyed db -> keyed db'.
Proof.
  unfold PayoutService.processWalletPayout.
  repeat branch; intros H Hdb; try discriminate.
  inversion H; subst. eapply wallet_call_keyed; eauto.
Qed.

Create HintDb keyed.
#[local] Hint Resolve escrow_save_keyed : keyed.

Ltac keyed_forward :=
  repeat match goal with
    | H : transaction_save _ ?db = (_, ?db') |- _ =>
        let Hi := fresh "Hkeyed" in
        assert (keyed db') as Hi
          by (apply (transaction_save_keyed _ _ _ _ H); eauto 6 with keyed);
        clear H
    | H : wallet_call _ _ _ ?db = Ok (_, ?db') |- _ =>
        let Hi := fresh "Hkeyed" in
        assert (keyed db') as Hi
          by (apply (wallet_call_keyed _ _ _ _ _ _ H); eauto 6 with keyed);
        clear H
    | H : CollectionsController.findOrCreateWallet ?db _ _ _ = (_, ?db') |- _ =>
        let Hi := fresh "Hkeyed" in
        assert (keyed db') as Hi
          by (apply (findOrCreateWallet_keyed _ _ _ _ _ _ H); eauto 6 with keyed);
        clear H
    | H : PayoutService.processWalletPayout ?db _ _ = Ok (_, ?db') |- _ =>
        let Hi := fresh "Hkeyed" in
        assert (keyed db') as Hi
          by (apply (processWalletPayout_keyed _ _ _ _ _ H); eauto 6 with keyed);
        clear H
    | H : Ok _ = Ok _ |- _ => inversion H; subst; clear H
    | H : Throw _ = Ok _ |- _ => discriminate H
    end.

Ltac keyed_solve :=
  repeat (branch; cbn [snd]); keyed_forward; eauto 6 with keyed.

Lemma handle_keyed db r : keyed db -> keyed (snd (handle db r)).
Proof.
  intros Hdb. destruct r; cbn [handle snd].
  - unfold EscrowController.createEscrow. cbn [snd]. keyed_solve.
  - unfold EscrowController.fulfillCondition. cbn [snd]. keyed_solve.
  - unfold EscrowController.releaseEscrow. cbn [snd]. keyed_solve.
  - unfold EscrowController.refundEscrow. cbn [snd]. keyed_solve.
  - unfold EscrowController.raiseDispute. cbn [snd]. keyed_solve.
  - unfold WalletController.fundWallet. cbn [snd]. keyed_solve.
  - unfold WalletController.withdrawFromWallet. cbn [snd]. keyed_solve.
  - unfold WalletController.transferFunds. cbn [snd]. keyed_solve.
  - unfold PayoutController.createPayout. cbn [snd]. keyed_solve.
  - unfold PayoutController.createPayoutInternal.
    repeat branch. keyed_forward. rewrite transaction_save_eq. cbn [snd].
    eapply transaction_save_keyed; [apply transaction_save_eq|assumption].
  - unfold PayoutController.cancelPayout. cbn [snd]. keyed_solve.
  - unfold CollectionsController.createCollection. cbn [snd]. keyed_solve.
Qed.

Lemma run_keyed rs : forall db, keyed db -> keyed (run db rs).
Proof.
  induction rs as [|r rs IH]; intros db Hdb; [exact Hdb|].
  apply IH. apply handle_keyed. exact Hdb.
Qed.

Lemma scenario_db0_well_keyed : well_keyed Scenario.db0.
Proof.
  intros k w H. unfold Scenario.db0 in H. cbn [wallets] in H.
  apply lookup_insert_Some in H as [[<- <-]|[_ H]]; [reflexivity|].
  apply lookup_insert_Some in H as [[<- <-]|[_ H]]; [reflexivity|].
  discriminate H.
Qed.

Lemma scenario_db0_keyed : keyed Scenario.db0.
Proof.
  split; [exact scenario_db0_well_keyed|].
  split; intros k x H; cbn in H; discriminate H.
Qed.

(** ** Witnesses of the value lemmas *)





(** ** Refusals *)

(** X5.  A request answered with 400, 403 or 404 leaves the database as it
    was, for every handler of the interface; the only exceptions are the
    answers "Payment processing failed" and "Payout processing failed",
    which are sent after a failed transaction has been recorded. *)
Theorem refusals_change_nothing (db : Db) (r : Request) :
  refused (fst (handle db r)) = true -> snd (handle db r) = db.
Proof.
  destruct r; cbn [handle];
    [ unfold EscrowController.createEscrow
    | unfold EscrowController.fulfillCondition
    | unfold EscrowController.releaseEscrow
    | unfold EscrowController.refundEscrow
    | unfold EscrowController.raiseDispute
    | unfold WalletController.fundWallet
    | unfold WalletController.withdrawFromWallet
    | unfold WalletController.transferFunds
    | unfold PayoutController.createPayout
    | idtac
    | unfold PayoutController.cancelPayout
    | unfold CollectionsController.createCollection ];
    repeat (branch; cbn [fst snd]); intros H; try reflexivity;
    exfalso; revert H; vm_compute; discriminate.
Qed.

Lemma refusals_change_nothing_witness :
  snd (handle Scenario.db0 (TransferFunds "payer" "x1" 20000 "B" None)) = Scenario.db0.
Proof.
  apply (refusals_change_nothing Scenario.db0 (TransferFunds "payer" "x1" 20000 "B" None)).
  vm_compute. reflexivity.
Defined.

(** ** The states of an escrow *)

Lemma allowed_transition_refl s : allowed_transition s s.
Proof. left. reflexivity. Qed.

Lemma allowed_transition_trans a b c :
  allowed_transition a b -> allowed_transition b c -> allowed_transition a c.
Proof.
  unfold allowed_transition. intros H1 H2.
  destruct H1 as [->|[[-> Hb]|[-> ->]]]; [exact H2| |].
  - destruct H2 as [->|[[Hb' Hc]|[Hb' ->]]].
    + right; left. split; [reflexivity|exact Hb].
    + destruct Hb as [Hb|[Hb|Hb]]; rewrite Hb in Hb'; discriminate Hb'.
    + right; left. split; [reflexivity|]. right; left. reflexivity.
  - destruct H2 as [->|[[Hb' Hc]|[Hb' ->]]].
    + right; right. split; reflexivity.
    + discriminate Hb'.
    + discriminate Hb'.
Qed.

Lemma escrow_save_lookup_ne x db id :
  EscrowModel.escrow_id x <> id -> escrows (escrow_save x db) !! id = escrows db !! id.
Proof.
  intros H. unfold escrow_save, EscrowModel.save. cbn [escrows set_escrows].
  apply lookup_insert_ne. exact H.
Qed.

Lemma escrow_save_lookup_eq x db :
  escrows (escrow_save x db) !! EscrowModel.escrow_id x = Some x.
Proof.
  unfold escrow_save, EscrowModel.save. cbn [escrows set_escrows]. apply lookup_insert_eq.
Qed.

(** Saving a new version [x] of the escrow stored under [eid], seen from
    the escrow stored under [id]. *)
Lemma escrow_save_step db x eid old id e :
  escrows_well_keyed db ->
  escrows db !! eid = Some old ->
  EscrowModel.escrow_id x = EscrowModel.escrow_id old ->
  allowed_transition (EscrowModel.status old) (EscrowModel.status x) ->
  escrows db !! id = Some e ->
  exists e', escrows (escrow_save x db) !! id = Some e'
             /\ allowed_transition (EscrowModel.status e) (EscrowModel.status e').
Proof.
  intros Hkey Hold Hid Hst Hl. pose proof (Hkey _ _ Hold) as Hk.
  destruct (decide (eid = id)) as [->|Hne].
  - assert (old = e) by congruence. subst old.
    exists x. split; [|exact Hst]. rewrite <- Hk, <- Hid. apply escrow_save_lookup_eq.
  - exists e. split; [|apply allowed_transition_refl].
    rewrite escrow_save_lookup_ne by congruence. exact Hl.
Qed.

Lemma fulfillCondition_status e c f e' :
  EscrowModel.fulfillCondition e c f = Ok e' ->
  EscrowModel.escrow_id e' = EscrowModel.escrow_id e
  /\ (EscrowModel.status e' = EscrowModel.status e \/ EscrowModel.status e' = "released").
Proof.
  unfold EscrowModel.fulfillCondition.
  repeat branch; intros H; inversion H; subst; split; auto.
Qed.

Lemma status_is s x : String.eqb s x = true -> s = x.
Proof. apply String.eqb_eq. Qed.

(** The escrows of the databases a handler went through, in terms of the
    first of them. *)
Ltac escrows_forward :=
  repeat match goal with
    | H : transaction_save _ _ = (_, _) |- _ =>
        apply transaction_save_frame in H as [_ H]
    | H : wallet_call _ _ _ _ = Ok (_, _) |- _ =>
        apply wallet_call_frame in H as [_ H]
    | H : CollectionsController.findOrCreateWallet _ _ _ _ = (_, _) |- _ =>
        apply findOrCreateWallet_frame in H as [_ H]
    | H : PayoutService.processWalletPayout _ _ _ = Ok (_, _) |- _ =>
        apply processWalletPayout_frame in H as [_ H]
    | H : Ok _ = Ok _ |- _ => inversion H; subst; clear H
    | H : Throw _ = Ok _ |- _ => discriminate H
    end.

Ltac escrows_rewrite :=
  repeat match goal with
    | H : escrows ?a = _ |- context [escrows ?a] => rewrite H
    end.

Ltac same_escrow Hl :=
  eexists; split; [exact Hl|apply allowed_transition_refl].

Lemma fulfillCondition_step db u eid c f id e :
  escrows_well_keyed db -> escrows db !! id = Some e ->
  exists e', escrows (snd (EscrowController.fulfillCondition db u eid c f)) !! id = Some e'
             /\ allowed_transition (EscrowModel.status e) (EscrowModel.status e').
Proof.
  intros Hkey Hl. unfold EscrowController.fulfillCondition.
  repeat (branch; cbn [snd]); try same_escrow Hl.
  match goal with H : EscrowModel.fulfillCondition _ _ _ = Ok _ |- _ =>
    apply fulfillCondition_status in H as [Hid Hst] end.
  match goal with H : negb (String.eqb _ "active") = false |- _ =>
    apply negb_false_iff, status_is in H; rename H into Hact end.
  eapply escrow_save_step; eauto.
  destruct Hst as [-> | ->]; [left; reflexivity|].
  right; left. split; [exact Hact|auto].
Qed.

Lemma releaseEscrow_step db u uuid eid id e :
  escrows_well_keyed db -> escrows db !! id = Some e ->
  exists e', escrows (snd (EscrowController.releaseEscrow db u uuid eid)) !! id = Some e'
             /\ allowed_transition (EscrowModel.status e) (EscrowModel.status e').
Proof.
  intros Hkey Hl. unfold EscrowController.releaseEscrow.
  repeat (branch; cbn [snd]); try same_escrow Hl.
  all: match goal with H : negb (String.eqb _ "active") = false |- _ =>
         apply negb_false_iff, status_is in H; rename H into Hact end.
  all: escrows_forward; escrows_rewrite.
  all: eapply escrow_save_step; eauto; right; left; split; [exact Hact|auto].
Qed.

Lemma refundEscrow_step db u uuid eid why id e :
  escrows_well_keyed db -> escrows db !! id = Some e ->
  exists e', escrows (snd (EscrowController.refundEscrow db u uuid eid why)) !! id = Some e'
             /\ allowed_transition (EscrowModel.status e) (EscrowModel.status e').
Proof.
  intros Hkey Hl. unfold EscrowController.refundEscrow.
  repeat (branch; cbn [snd]); try same_escrow Hl.
  all: match goal with H : negb (_ || _) = false |- _ =>
         apply negb_false_iff, orb_true_iff in H; rename H into Hact end.
  all: escrows_forward; escrows_rewrite.
  all: eapply escrow_save_step; eauto.
  all: destruct Hact as [Hact|Hact]; apply status_is in Hact;
    [right; left; split; [exact Hact|auto] | right; right; split; [exact Hact|reflexivity]].
Qed.

Lemma raiseDispute_step db u uuid eid why descr id e :
  escrows_well_keyed db -> escrows db !! id = Some e ->
  exists e', escrows (snd (EscrowController.raiseDispute db u uuid eid why descr)) !! id
             = Some e'
             /\ allowed_transition (EscrowModel.status e) (EscrowModel.status e').
Proof.
  intros Hkey Hl. unfold EscrowController.raiseDispute.
  repeat (branch; cbn [snd]); try same_escrow Hl.
  match goal with H : negb (String.eqb _ "active") = false |- _ =>
    apply negb_false_iff, status_is in H; rename H into Hact end.
  eapply escrow_save_step; eauto. right; left. split; [exact Hact|auto].
Qed.

Lemma createEscrow_step db u uuid t b id e :
  String.eqb ("esc_" ++ uuid) id = false -> escrows db !! id = Some e ->
  escrows (snd (EscrowController.createEscrow db u uuid t b)) !! id = Some e.
Proof.
  intros Hne Hl. apply String.eqb_neq in Hne. unfold EscrowController.createEscrow.
  repeat (branch; cbn [snd]); escrows_forward; try exact Hl.
  all: repeat first [rewrite escrow_save_lookup_ne by exact Hne | progress escrows_rewrite].
  all: exact Hl.
Qed.

Lemma handle_step db r id e :
  escrows_well_keyed db -> creates_escrow id r = false -> escrows db !! id = Some e ->
  exists e', escrows (snd (handle db r)) !! id = Some e'
             /\ allowed_transition (EscrowModel.status e) (EscrowModel.status e').
Proof.
  intros Hkey Hc Hl. destruct r; cbn [handle].
  - exists e. split; [apply createEscrow_step; assumption|apply allowed_transition_refl].
  - apply fulfillCondition_step; assumption.
  - apply releaseEscrow_step; assumption.
  - apply refundEscrow_step; assumption.
  - apply raiseDispute_step; assumption.
  - unfold WalletController.fundWallet.
    repeat (branch; cbn [snd]); escrows_forward; escrows_rewrite; same_escrow Hl.
  - unfold WalletController.withdrawFromWallet.
    repeat (branch; cbn [snd]); escrows_forward; escrows_rewrite; same_escrow Hl.
  - unfold WalletController.transferFunds.
    repeat (branch; cbn [snd]); escrows_forward; escrows_rewrite; same_escrow Hl.
  - unfold PayoutController.createPayout.
    repeat (branch; cbn [snd]); escrows_forward; escrows_rewrite; same_escrow Hl.
  - cbn [snd]. unfold PayoutController.createPayoutInternal.
    repeat branch. escrows_forward. rewrite transaction_save_eq. cbn [snd escrows set_transactions].
    escrows_rewrite. same_escrow Hl.
  - unfold PayoutController.cancelPayout.
    repeat (branch; cbn [snd]); escrows_forward; escrows_rewrite; same_escrow Hl.
  - unfold CollectionsController.createCollection.
    repeat (branch; cbn [snd]); escrows_forward; escrows_rewrite; same_escrow Hl.
Qed.

(** X6.  The status of a stored escrow moves only from [active] to
    [released], [refunded] or [disputed] and from [disputed] to [refunded],
    whatever sequence of requests is served (none of them creating an escrow
    under the same id): a released or refunded escrow keeps its status for
    ever, and a disputed escrow is never released. *)
Theorem escrow_status_transitions (db : Db) (rs : list Request) (id : string)
        (e : EscrowModel.Escrow) :
  keyed db ->
  forallb (fun r => negb (creates_escrow id r)) rs = true ->
  escrows db !! id = Some e ->
  exists e',
    escrows (run db rs) !! id = Some e'
    /\ allowed_transition (EscrowModel.status e) (EscrowModel.status e')
    /\ (EscrowModel.status e = "released" \/ EscrowModel.status e = "refunded" ->
        EscrowModel.status e' = EscrowModel.status e)
    /\ (EscrowModel.status e = "disputed" ->
        EscrowModel.status e' = "disputed" \/ EscrowModel.status e' = "refunded").
Proof.
  intros Hkey Hrs Hl.
  assert (Hrun : exists e', escrows (run db rs) !! id = Some e'
                            /\ allowed_transition (EscrowModel.status e)
                                                  (EscrowModel.status e')).
  { revert db e Hkey Hl. induction rs as [|r rs IH]; intros db e Hkey Hl.
    - exists e. split; [exact Hl|apply allowed_transition_refl].
    - cbn [forallb] in Hrs. apply andb_true_iff in Hrs as [Hr Hrs].
      apply negb_true_iff in Hr.
      destruct (handle_step db r id e (proj1 (proj2 Hkey)) Hr Hl) as (e1 & Hl1 & Ht1).
      destruct (IH Hrs (snd (handle db r)) e1 (handle_keyed db r Hkey) Hl1)
        as (e2 & Hl2 & Ht2).
      exists e2. split; [exact Hl2|]. eapply allowed_transition_trans; eassumption. }
  destruct Hrun as (e' & Hl' & Ht). exists e'.
  split; [exact Hl'|]. split; [exact Ht|].
  unfold allowed_transition in Ht. split.
  - intros Hs. destruct Ht as [Ht|[[Ht _]|[Ht _]]]; [exact Ht| |];
      destruct Hs as [Hs|Hs]; rewrite Hs in Ht; discriminate Ht.
  - intros Hs. destruct Ht as [Ht|[[Ht _]|[_ Ht]]].
    + left. congruence.
    + rewrite Hs in Ht. discriminate Ht.
    + right. exact Ht.
Qed.

Lemma escrow_status_transitions_witness :
  exists e',
    escrows (run Examples.db_active
               [RaiseDispute "payee" "d1" "esc_e1" "late" "goods not delivered";
                Scenario.release; Scenario.refund]) !! "esc_e1" = Some e'
    /\ allowed_transition (EscrowModel.status Scenario.active_escrow) (EscrowModel.status e')
    /\ (EscrowModel.status Scenario.active_escrow = "released"
        \/ EscrowModel.status Scenario.active_escrow = "refunded" ->
        EscrowModel.status e' = EscrowModel.status Scenario.active_escrow)
    /\ (EscrowModel.status Scenario.active_escrow = "disputed" ->
        EscrowModel.status e' = "disputed" \/ EscrowModel.status e' = "refunded").
Proof.
  apply (escrow_status_transitions Examples.db_active
           [RaiseDispute "payee" "d1" "esc_e1" "late" "goods not delivered";
            Scenario.release; Scenario.refund] "esc_e1" Scenario.active_escrow).
  - exact (run_keyed _ _ scenario_db0_keyed).
  - reflexivity.
  - vm_compute. reflexivity.
Defined.

(** ** Fulfilling conditions *)








(** ** The wallet handlers: what is checked and what is debited *)




(** The stored wallet after one method call on a document read from the
    store. *)
Lemma save_fresh w w1 (ws : gmap string WalletModel.Wallet) k :
  ws !! k = Some w -> WalletModel.wallet_id w1 = k ->
  exists w', WalletModel.save w w1 ws !! k = Some w'
             /\ same_balances (WalletModel.balances w') (WalletModel.balances w1).
Proof. intros Hl Hid. exact (save_lookup_at w w1 ws k w Hl Hid (same_balances_refl _)). Qed.









(** ** Cancelling payouts *)

Lemma credit_fresh w x (ws : gmap string WalletModel.Wallet) k :
  ws !! k = Some w -> WalletModel.wallet_id w = k ->
  exists w',
    WalletModel.save w
      (WalletModel.set_balances w
         (WalletModel.mkBalances (WalletModel.available (WalletModel.balances w) + x)
                                 (WalletModel.locked (WalletModel.balances w))
                                 (WalletModel.pending (WalletModel.balances w))))
      ws !! k = Some w'
    /\ credited w w' x.
Proof.
  intros Hl Hid.
  match goal with
  | |- context [WalletModel.save w ?w1 _] =>
      destruct (save_fresh w w1 ws k Hl Hid) as (w' & Hw' & (Ha & Hlk & Hp))
  end.
  exists w'. split; [exact Hw'|]. simpl in Ha, Hlk, Hp. repeat split; assumption.
Qed.









(** ** Webhook deliveries in general *)

Lemma sendWebhook_returns endpoint :
  exists outcome trace, WebhookService.sendWebhook endpoint = Some (outcome, trace).
Proof.
  rewrite sendWebhook_unfold.
  destruct (endpoint 0); [eauto|]. destruct (endpoint 1); [eauto|].
  destruct (endpoint 2); eauto.
Qed.

(** X16.  Whatever the endpoint does, [sendWebhook] returns after at most
    three posts and at most 20 seconds of waiting; the third configured
    delay, 45 seconds, is never used.  A delivery reported with [attempt = k]
    was posted exactly k times, every earlier post failed and the k-th was
    answered; a failure is reported only after three failed posts, with the
    error of the last one. *)
Theorem webhook_backoff_bounds (endpoint : nat -> result nat) :
  exists outcome trace,
    WebhookService.sendWebhook endpoint = Some (outcome, trace)
    /\ (total_wait trace <= 20000)%Z
    /\ ~ In (WebhookService.Wait 45000) trace
    /\ match outcome with
       | WebhookService.Delivered attempt status =>
           1 <= attempt <= 3
           /\ WebhookService.posts trace = attempt
           /\ endpoint (attempt - 1) = Ok status
           /\ forall k, k < attempt - 1 -> exists msg, endpoint k = Throw msg
       | WebhookService.Failed totalAttempts error =>
           totalAttempts = 3
           /\ WebhookService.posts trace = 3
           /\ total_wait trace = 20000%Z
           /\ endpoint 2 = Throw error
           /\ forall k, k < 3 -> exists msg, endpoint k = Throw msg
       end.
Proof.
  rewrite sendWebhook_unfold.
  destruct (endpoint 0) as [s0|m0] eqn:E0.
  { eexists; eexists. split; [reflexivity|]. split; [cbn; lia|].
    split; [intros Hin; repeat (destruct Hin as [Hin|Hin]; [discriminate Hin|]); exact Hin|].
    split; [lia|]. split; [reflexivity|]. split; [exact E0|]. intros k Hk. cbn in Hk. lia. }
  destruct (endpoint 1) as [s1|m1] eqn:E1.
  { eexists; eexists. split; [reflexivity|]. split; [cbn; lia|].
    split; [intros Hin; repeat (destruct Hin as [Hin|Hin]; [discriminate Hin|]); exact Hin|].
    split; [lia|]. split; [reflexivity|]. split; [exact E1|].
    intros k Hk. cbn in Hk. assert (k = 0) by lia. subst k. eauto. }
  destruct (endpoint 2) as [s2|m2] eqn:E2.
  { eexists; eexists. split; [reflexivity|]. split; [cbn; lia|].
    split; [intros Hin; repeat (destruct Hin as [Hin|Hin]; [discriminate Hin|]); exact Hin|].
    split; [lia|]. split; [reflexivity|]. split; [exact E2|].
    intros k Hk. cbn in Hk.
    assert (k = 0 \/ k = 1) as [-> | ->] by lia; eauto. }
  eexists; eexists. split; [reflexivity|]. split; [cbn; lia|].
  split; [intros Hin; repeat (destruct Hin as [Hin|Hin]; [discriminate Hin|]); exact Hin|].
  split; [reflexivity|]. split; [reflexivity|]. split; [reflexivity|].
  split; [reflexivity|].
  intros k Hk. assert (k = 0 \/ k = 1 \/ k = 2) as [-> | [-> | ->]] by lia; eauto.
Qed.

Lemma entries_spec webhooks : forall i0,
  exists es,
    WebhookBatch.entries i0 webhooks = Some es
    /\ length es = length webhooks
    /\ forall i w, nth_error webhooks i = Some w ->
         exists r, WebhookBatch.settle w = Some r
                   /\ nth_error es i = Some (WebhookBatch.entry (i0 + i) r).
Proof.
  induction webhooks as [|w0 rest IH]; intros i0.
  - exists []. split; [reflexivity|]. split; [reflexivity|].
    intros i w H. destruct i; discriminate H.
  - destruct (IH (S i0)) as (es & He & Hlen & Hnth).
    assert (Hr : exists r, WebhookBatch.settle w0 = Some r).
    { unfold WebhookBatch.settle. destruct (WebhookBatch.rejects w0); [eauto|].
      destruct (sendWebhook_returns (WebhookBatch.endpoint w0)) as (o & tr & Ho).
      rewrite Ho. eauto. }
    destruct Hr as [r Hr].
    exists (WebhookBatch.entry i0 r :: es).
    split; [|split].
    + cbn [WebhookBatch.entries]. rewrite Hr, He. reflexivity.
    + cbn [length]. congruence.
    + intros i w H. destruct i as [|i]; cbn [nth_error] in *.
      * inversion H; subst. exists r. split; [exact Hr|].
        rewrite Nat.add_0_r. reflexivity.
      * destruct (Hnth i w H) as (r' & Hr' & Hi).
        exists r'. split; [exact Hr'|]. rewrite Hi.
        replace (i0 + S i) with (S i0 + i) by lia. reflexivity.
Qed.

(** X17.  [sendBatchWebhooks] answers with one entry per webhook, in
    order, and the [success] flag of an entry tells only whether the promise
    of [sendWebhook] was fulfilled, not whether the webhook was delivered.
    A webhook whose preparation throws is reported with [success: false] and
    the error; every other webhook is reported with [success: true], no
    error and, as [data], the object [sendWebhook] returned, so an endpoint
    that fails all three posts is reported with [success: true] and the
    failure object as [data]. *)
Theorem batch_success_flag_ignores_delivery (webhooks : list WebhookBatch.Webhook) :
  exists es,
    WebhookBatch.sendBatchWebhooks webhooks = Some es
    /\ length es = length webhooks
    /\ forall i w, nth_error webhooks i = Some w ->
         (forall reason, WebhookBatch.rejects w = Some reason ->
            nth_error es i = Some (WebhookBatch.mkEntry i false None (Some reason)))
         /\ (WebhookBatch.rejects w = None ->
             exists outcome trace,
               WebhookService.sendWebhook (WebhookBatch.endpoint w) = Some (outcome, trace)
               /\ nth_error es i = Some (WebhookBatch.mkEntry i true (Some outcome) None))
         /\ (WebhookBatch.rejects w = None ->
             (forall n, exists msg, WebhookBatch.endpoint w n = Throw msg) ->
             exists msg,
               nth_error es i
               = Some (WebhookBatch.mkEntry i true
                         (Some (WebhookService.Failed 3 msg)) None)).
Proof.
  destruct (entries_spec webhooks 0) as (es & He & Hlen & Hnth).
  exists es. split; [exact He|]. split; [exact Hlen|].
  intros i w Hi. destruct (Hnth i w Hi) as (r & Hr & Hes). cbn [Nat.add] in Hes.
  unfold WebhookBatch.settle in Hr.
  split; [|split].
  - intros reason Hrej. rewrite Hrej in Hr. inversion Hr; subst. exact Hes.
  - intros Hrej. rewrite Hrej in Hr.
    destruct (WebhookService.sendWebhook (WebhookBatch.endpoint w)) as [[o tr]|] eqn:Ho;
      [|discriminate Hr].
    inversion Hr; subst. exists o, tr. split; [reflexivity|exact Hes].
  - intros Hrej Hfail. rewrite Hrej, sendWebhook_unfold in Hr.
    destruct (Hfail 0) as [m0 H0]. destruct (Hfail 1) as [m1 H1].
    destruct (Hfail 2) as [m2 H2].
    rewrite H0, H1, H2 in Hr. inversion Hr; subst. exists m2. exact Hes.
Qed.

Lemma batch_success_flag_ignores_delivery_witness :
  exists msg,
    nth_error
      (default [] (WebhookBatch.sendBatchWebhooks
                     [WebhookBatch.mkWebhook None (fun _ => Ok 200);
                      WebhookBatch.mkWebhook None (fun _ => Throw "ECONNREFUSED")])) 1
    = Some (WebhookBatch.mkEntry 1 true (Some (WebhookService.Failed 3 msg)) None).
Proof.
  destruct (batch_success_flag_ignores_delivery
              [WebhookBatch.mkWebhook None (fun _ => Ok 200);
               WebhookBatch.mkWebhook None (fun _ => Throw "ECONNREFUSED")])
    as (es & He & _ & Hnth).
  destruct (proj2 (proj2 (Hnth 1 (WebhookBatch.mkWebhook None (fun _ => Throw "ECONNREFUSED"))
                            eq_refl)) eq_refl) as [msg Hmsg].
  - intros n. exists "ECONNREFUSED". reflexivity.
  - exists msg. rewrite He. exact Hmsg.
Defined.

(** ** Retrying payouts *)





(** ** Bulk payouts *)

Lemma createPayoutInternal_response db u pid p :
  BulkPayouts.createPayoutInternal db u pid p
  = (BulkPayouts.mkPayoutResponse pid "processing"
       (BulkPayouts.amount p + (BulkPayouts.amount p * 0.015 + 0))
       (TransactionModel.mkFees (BulkPayouts.amount p * 0.015) 0
                                (BulkPayouts.amount p * 0.015 + 0)),
     PayoutController.createPayoutInternal db u pid (BulkPayouts.amount p)
       (if JS.truthy (BulkPayouts.source_wallet_id p)
        then BulkPayouts.source_wallet_id p else None)).
Proof.
  unfold BulkPayouts.createPayoutInternal, PayoutController.createPayoutInternal.
  repeat (rewrite transaction_save_eq; cbn iota beta). reflexivity.
Qed.





(** ** Confirmations from the bank and from M-Pesa *)

Lemma truthy_nonempty id : id <> "" -> JS.truthy (Some id) = true.
Proof. destruct id; [contradiction|reflexivity]. Qed.





(** ** Collections *)

(** The record [createCollection] leaves, whatever the provider does: a
    collection that names no destination wallet and no user. *)
Lemma createCollection_record db u uuid uw amount pm provider :
  exists t,
    transactions (snd (CollectionsController.createCollection db u uuid uw amount pm provider))
      !! ("col_" ++ uuid) = Some t
    /\ TransactionModel.transaction_id t = "col_" ++ uuid
    /\ TransactionModel.type t = "collection"
    /\ TransactionModel.user_id t = None
    /\ TransactionModel.destination_wallet_id t = None
    /\ (pm = "mpesa" \/ pm = "card" \/ pm = "bank" ->
        forall st, provider = Ok st -> TransactionModel.status t = st).
Proof.
  unfold CollectionsController.createCollection.
  rewrite transaction_save_eq. cbn iota beta.
  destruct (String.eqb pm "mpesa" || String.eqb pm "card" || String.eqb pm "bank") eqn:Epm.
  - destruct provider as [st|msg].
    + destruct (String.eqb st "completed") eqn:Est.
      * destruct (CollectionsController.findOrCreateWallet _ _ _ _) as [wl db2] eqn:Ef.
        rewrite wallet_call_addFunds_ok. cbn iota beta. rewrite transaction_save_eq.
        cbn [snd transactions set_transactions].
        eexists. split; [apply lookup_insert_eq|].
        repeat split; try reflexivity. intros _ st' H. inversion H; subst. reflexivity.
      * rewrite transaction_save_eq. cbn [snd transactions set_transactions].
        eexists. split; [apply lookup_insert_eq|].
        repeat split; try reflexivity. intros _ st' H. inversion H; subst. reflexivity.
    + rewrite transaction_save_eq. cbn [snd transactions set_transactions].
      eexists. split; [apply lookup_insert_eq|].
      repeat split; try reflexivity. intros _ st' H. discriminate H.
  - rewrite transaction_save_eq. cbn [snd transactions set_transactions].
    eexists. split; [apply lookup_insert_eq|].
    repeat split; try reflexivity.
    intros Hpm. exfalso.
    destruct Hpm as [-> | [-> | ->]]; discriminate Epm.
Qed.




(** X25.  A collection made by [createCollection] cannot be cancelled.
    The record carries no user id, and [cancelCollection] looks the
    collection up by transaction id, type and user id: whoever asks, the
    answer is 404 "Collection not found" and nothing changes. *)
Theorem created_collection_cannot_be_cancelled (db : Db) (u uuid uw : string) (amount : Q)
        (pm : string) (provider : result string) (who : string) :
  let db1 := snd (CollectionsController.createCollection db u uuid uw amount pm provider) in
  CollectionsCancel.cancelCollection db1 who ("col_" ++ uuid)
  = (mkResponse 404 "Collection not found", db1).
Proof.
  intros db1.
  destruct (createCollection_record db u uuid uw amount pm provider)
    as (t & Hl & _ & Hty & Hu & _). fold db1 in Hl.
  unfold CollectionsCancel.cancelCollection. rewrite Hl, Hty, Hu. reflexivity.
Qed.



(** ** Round trips of the ledger primitives *)



(** ** Two documents of one wallet *)





(** ** Answers that are never given *)


(** ** The M-Pesa B2C callbacks *)

Lemma find_payout_found regex_test db pattern t :
  PayoutCallbacks.find_payout regex_test db pattern = Some t ->
  (exists k, transactions db !! k = Some t)
  /\ TransactionModel.type t = "payout"
  /\ (TransactionModel.status t = "pending" \/ TransactionModel.status t = "processing").
Proof.
  unfold PayoutCallbacks.find_payout.
  destruct (find _ _) as [[k x]|] eqn:E; [|discriminate].
  intros H; inversion H; subst; clear H.
  apply find_some in E as [Hin Hp]. cbn [snd] in Hp.
  apply andb_true_iff in Hp as [Hp Hst]. apply andb_true_iff in Hp as [_ Hty].
  split; [exists k; apply elem_of_map_to_list, list_elem_of_In; exact Hin|].
  split; [apply String.eqb_eq; exact Hty|].
  apply orb_true_iff in Hst as [Hst|Hst]; apply String.eqb_eq in Hst; auto.
Qed.

(** After a payout was stored as [failed], no query for open payouts finds
    it and [cancelPayout] refuses it. *)
Lemma failed_payout_is_closed regex_test db id t :
  transactions_well_keyed db ->
  transactions db !! id = Some t ->
  TransactionModel.status t = "failed" ->
  (forall pattern t', PayoutCallbacks.find_payout regex_test db pattern = Some t' ->
                      TransactionModel.transaction_id t' <> id)
  /\ (forall u, snd (PayoutController.cancelPayout db u id) = db
                /\ code (fst (PayoutController.cancelPayout db u id)) <> 200).
Proof.
  intros Hkey Hl Hst. split.
  - intros pattern t' Hf Hid.
    destruct (find_payout_found _ _ _ _ Hf) as ([k Hk] & _ & Hopen).
    pose proof (Hkey _ _ Hk) as Hkk. rewrite Hid in Hkk. subst k.
    assert (t' = t) by congruence. subst t'.
    rewrite Hst in Hopen. destruct Hopen as [H|H]; discriminate H.
  - intros u. unfold PayoutController.cancelPayout. rewrite Hl, Hst.
    destruct (negb _); cbn; split; try reflexivity; discriminate.
Qed.

Lemma insert_well_keyed db (t : TransactionModel.Transaction) :
  transactions_well_keyed db ->
  forall k x, <[TransactionModel.transaction_id t := t]> (transactions db) !! k = Some x ->
              TransactionModel.transaction_id x = k.
Proof.
  intros Hkey k x Hl.
  apply lookup_insert_Some in Hl as [[<- <-]|[_ Hl]]; [reflexivity|exact (Hkey _ _ Hl)].
Qed.

Lemma refund_source_credits t db src w :
  TransactionModel.source_wallet_id t = Some src -> src <> "" ->
  wallets db !! src = Some w ->
  PayoutCallbacks.refund_source t db
  = Ok (set_wallets db
          (WalletModel.save w
             (WalletModel.set_balances w
                (WalletModel.mkBalances
                   (WalletModel.available (WalletModel.balances w)
                    + TransactionModel.amount t)
                   (WalletModel.locked (WalletModel.balances w))
                   (WalletModel.pending (WalletModel.balances w))))
             (wallets db))).
Proof.
  intros Hsrc Hne Hw. unfold PayoutCallbacks.refund_source.
  rewrite Hsrc, (truthy_nonempty _ Hne), Hw, wallet_call_addFunds_ok. reflexivity.
Qed.

(** X29.  A payout that M-Pesa reports as failed, or that times out, is
    refunded once.  When the callback finds an open payout with a source
    wallet, [mpesaB2CResult] with a non-zero result code and
    [mpesaB2CTimeout] both answer "Success", store the payout as [failed]
    and credit its recorded amount (amount plus fee) to the source wallet,
    leaving the other wallets alone.  The payout is then closed: no later
    callback finds it, whatever pattern it carries, and [cancelPayout]
    refuses it without changing anything.  A result code of 0 stores the
    payout as [completed] and changes no wallet. *)
Theorem failed_b2c_payout_is_refunded_once
        (regex_test : string -> string -> bool) (db : Db) (pattern desc src : string)
        (code0 : Z) (t : TransactionModel.Transaction) (w : WalletModel.Wallet) :
  transactions_well_keyed db ->
  PayoutCallbacks.find_payout regex_test db pattern = Some t ->
  TransactionModel.source_wallet_id t = Some src -> src <> "" ->
  wallets db !! src = Some w -> WalletModel.wallet_id w = src ->
  let closed out :=
    body (fst out) = "Success"
    /\ (exists w', wallets (snd out) !! src = Some w'
                   /\ credited w w' (TransactionModel.amount t))
    /\ (forall k, k <> src -> wallets (snd out) !! k = wallets db !! k)
    /\ (exists t', transactions (snd out) !! TransactionModel.transaction_id t = Some t'
                   /\ TransactionModel.status t' = "failed")
    /\ (forall pattern' t', PayoutCallbacks.find_payout regex_test (snd out) pattern' = Some t' ->
                            TransactionModel.transaction_id t'
                            <> TransactionModel.transaction_id t)
    /\ (forall u, snd (PayoutController.cancelPayout (snd out) u
                         (TransactionModel.transaction_id t)) = snd out) in
  (code0 <> 0%Z -> closed (PayoutCallbacks.mpesaB2CResult regex_test db pattern code0 desc))
  /\ closed (PayoutCallbacks.mpesaB2CTimeout regex_test db pattern)
  /\ (wallets (snd (PayoutCallbacks.mpesaB2CResult regex_test db pattern 0 desc)) = wallets db
      /\ exists t', transactions (snd (PayoutCallbacks.mpesaB2CResult regex_test db pattern 0 desc))
                      !! TransactionModel.transaction_id t = Some t'
                    /\ TransactionModel.status t' = "completed").
Proof.
  intros Hkey Hf Hsrc Hne Hw Hwid closed.
  assert (Hclosed : forall r : string,
    let failed :=
      TransactionModel.data
        (TransactionModel.set_failure_reason
           (TransactionModel.set_status (TransactionModel.load t) "failed") r) in
    closed
      (mkResponse 200 "Success",
       mkDb (WalletModel.save w
               (WalletModel.set_balances w
                  (WalletModel.mkBalances
                     (WalletModel.available (WalletModel.balances w)
                      + TransactionModel.amount t)
                     (WalletModel.locked (WalletModel.balances w))
                     (WalletModel.pending (WalletModel.balances w))))
               (wallets db))
            (<[TransactionModel.transaction_id t := failed]> (transactions db))
            (escrows db))).
  { intros r failed. subst closed. cbv beta.
    cbn [fst snd body wallets transactions].
    split; [reflexivity|]. split; [apply credit_fresh; assumption|].
    split; [intros k Hk; apply save_lookup_ne; cbn; congruence|].
    split; [eexists; split; [apply lookup_insert_eq|reflexivity]|].
    match goal with
    | |- context [mkDb ?ws ?tr ?es] =>
        destruct (failed_payout_is_closed regex_test (mkDb ws tr es)
                    (TransactionModel.transaction_id t) failed) as [Hnot Hcancel]
    end.
    - intros k x. cbn [transactions]. apply (insert_well_keyed db failed Hkey).
    - cbn [transactions]. apply lookup_insert_eq.
    - reflexivity.
    - split; [exact Hnot|]. intros u. exact (proj1 (Hcancel u)). }
  split; [|split].
  - intros Hcode. unfold PayoutCallbacks.mpesaB2CResult. rewrite Hf.
    apply Z.eqb_neq in Hcode. rewrite Hcode.
    rewrite (refund_source_credits _ db src w) by assumption.
    rewrite transaction_save_eq.
    exact (Hclosed desc).
  - unfold PayoutCallbacks.mpesaB2CTimeout. rewrite Hf, transaction_save_eq.
    cbn iota beta.
    rewrite (refund_source_credits _ _ src w) by assumption.
    exact (Hclosed "B2C timeout").
  - unfold PayoutCallbacks.mpesaB2CResult. rewrite Hf. cbn [Z.eqb].
    rewrite transaction_save_eq. cbn [snd wallets transactions set_transactions].
    split; [reflexivity|]. eexists. split; [apply lookup_insert_eq|reflexivity].
Qed.

Lemma failed_b2c_payout_is_refunded_once_witness :
  body (fst (PayoutCallbacks.mpesaB2CResult String.eqb Examples.db_pending_payout
               "payout_p1" 1 "insufficient float")) = "Success".
Proof.
  refine (proj1 (proj1 (failed_b2c_payout_is_refunded_once String.eqb
                          Examples.db_pending_payout "payout_p1" "insufficient float" "A" 1
                          Examples.pending_payout Examples.debited_payer _ _ _ _ _ _) _)).
  - exact (proj2 (proj2 (handle_keyed Scenario.db0 _ scenario_db0_keyed))).
  - vm_compute. reflexivity.
  - reflexivity.
  - discriminate.
  - vm_compute. reflexivity.
  - reflexivity.
  - discriminate.
Defined.

(** ** The invariants under the remaining handlers *)

Lemma set_retry_count_consistent d n :
  doc_consistent d -> doc_consistent (TransactionMethods.set_retry_count d n).
Proof. intros [H|H]; [left|right]; exact H. Qed.

#[local] Hint Resolve set_retry_count_consistent : fees.

Lemma credit_destination_consistent t db db' :
  WebhooksController.credit_destination t db = Ok db' ->
  fees_consistent db -> fees_consistent db'.
Proof.
  unfold WebhooksController.credit_destination.
  repeat branch; intros H Hdb; inversion H; subst; try assumption.
  fees_forward. assumption.
Qed.

Lemma credit_destination_money t db db' :
  WebhooksController.credit_destination t db = Ok db' ->
  money_inv db -> (0 <= TransactionModel.net_amount t)%Q -> money_inv db'.
Proof.
  unfold WebhooksController.credit_destination.
  repeat branch; intros H Hdb Hnet; inversion H; subst; try assumption.
  money_forward. assumption.
Qed.

Lemma retryPayout_invariants db u id :
  fees_consistent db -> money_inv db ->
  fees_consistent (snd (PayoutRetry.retryPayout db u id))
  /\ money_inv (snd (PayoutRetry.retryPayout db u id)).
Proof.
  intros Hf Hm. unfold PayoutRetry.retryPayout, TransactionMethods.scheduleRetry. split.
  - fees_solve.
  - money_solve.
Qed.

Lemma cancelCollection_invariants db u id :
  fees_consistent db -> money_inv db ->
  fees_consistent (snd (CollectionsCancel.cancelCollection db u id))
  /\ money_inv (snd (CollectionsCancel.cancelCollection db u id)).
Proof.
  intros Hf Hm. unfold CollectionsCancel.cancelCollection. split.
  - fees_solve.
  - money_solve.
Qed.

Lemma bankConfirmation_invariants db id st :
  fees_consistent db -> money_inv db ->
  fees_consistent (snd (WebhooksController.bankConfirmation db id st))
  /\ money_inv (snd (WebhooksController.bankConfirmation db id st)).
Proof.
  intros Hf Hm. unfold WebhooksController.bankConfirmation. split.
  - repeat (branch; cbn [snd]);
      repeat match goal with
        | H : WebhooksController.credit_destination _ _ = Ok _ |- _ =>
            apply credit_destination_consistent in H; [|assumption]
        end;
      fees_forward; eauto 6 with fees.
  - repeat (branch; cbn [snd]); try assumption.
    + match goal with
      | H : transactions _ !! _ = Some _ |- _ =>
          pose proof (stored_txn_nonneg _ _ _ Hm H) as [Ha Hn]
      end.
      match goal with
      | H : WebhooksController.credit_destination _ _ = Ok _ |- _ =>
          apply credit_destination_money in H; [|assumption|exact Hn]
      end.
      money_forward. assumption.
    + money_forward. assumption.
Qed.

Lemma mpesaC2BConfirmation_invariants db ref :
  fees_consistent db -> money_inv db ->
  fees_consistent (snd (WebhooksController.mpesaC2BConfirmation db ref))
  /\ money_inv (snd (WebhooksController.mpesaC2BConfirmation db ref)).
Proof.
  intros Hf Hm. unfold WebhooksController.mpesaC2BConfirmation. split.
  - repeat (branch; cbn [snd]); fees_forward;
      repeat match goal with
        | H : WebhooksController.credit_destination _ _ = Ok _ |- _ =>
            apply credit_destination_consistent in H; [|assumption]
        end;
      eauto 6 with fees.
  - repeat (branch; cbn [snd]); try assumption.
    all: match goal with
         | H : transactions _ !! _ = Some _ |- _ =>
             pose proof (stored_txn_nonneg _ _ _ Hm H) as [Ha Hn]
         end.
    all: money_forward; try assumption.
    match goal with
    | H : WebhooksController.credit_destination _ _ = Ok _ |- _ =>
        apply credit_destination_money in H; [assumption|assumption|exact Hn]
    end.
Qed.

Lemma refund_source_consistent t db db' :
  PayoutCallbacks.refund_source t db = Ok db' ->
  fees_consistent db -> fees_consistent db'.
Proof.
  unfold PayoutCallbacks.refund_source.
  repeat branch; intros H Hdb; inversion H; subst; try assumption.
  fees_forward. assumption.
Qed.

Lemma refund_source_money t db db' :
  PayoutCallbacks.refund_source t db = Ok db' ->
  money_inv db -> (0 <= TransactionModel.amount t)%Q -> money_inv db'.
Proof.
  unfold PayoutCallbacks.refund_source.
  repeat branch; intros H Hdb Hnet; inversion H; subst; try assumption.
  money_forward. assumption.
Qed.

Lemma find_payout_consistent regex_test db pattern t :
  PayoutCallbacks.find_payout regex_test db pattern = Some t ->
  fees_consistent db -> doc_consistent (TransactionModel.load t).
Proof.
  intros Hf Hdb. destruct (find_payout_found _ _ _ _ Hf) as ([k Hk] & _).
  exact (load_consistent db k t Hdb Hk).
Qed.

Lemma mpesaB2C_invariants regex_test db pattern code0 desc :
  fees_consistent db -> money_inv db ->
  (fees_consistent (snd (PayoutCallbacks.mpesaB2CResult regex_test db pattern code0 desc))
   /\ money_inv (snd (PayoutCallbacks.mpesaB2CResult regex_test db pattern code0 desc)))
  /\ (fees_consistent (snd (PayoutCallbacks.mpesaB2CTimeout regex_test db pattern))
      /\ money_inv (snd (PayoutCallbacks.mpesaB2CTimeout regex_test db pattern))).
Proof.
  intros Hf Hm.
  unfold PayoutCallbacks.mpesaB2CResult, PayoutCallbacks.mpesaB2CTimeout.
  destruct (PayoutCallbacks.find_payout regex_test db pattern) as [t|] eqn:Ef;
    [|cbn [snd]; auto].
  pose proof (find_payout_consistent _ _ _ _ Ef Hf) as Hdoc.
  destruct (find_payout_found _ _ _ _ Ef) as ([k Hk] & _).
  pose proof (stored_txn_nonneg _ _ _ Hm Hk) as [Ha Hn].
  refine (conj (conj _ _) (conj _ _)).
  - repeat (branch; cbn [snd]);
      repeat match goal with
        | H : PayoutCallbacks.refund_source _ _ = Ok _ |- _ =>
            apply refund_source_consistent in H; [|assumption]
        end;
      fees_forward; eauto 6 with fees.
  - repeat (branch; cbn [snd]); try assumption.
    + money_forward. assumption.
    + match goal with
      | H : PayoutCallbacks.refund_source _ _ = Ok _ |- _ =>
          apply refund_source_money in H; [|assumption|exact Ha]
      end.
      money_forward. assumption.
  - repeat (branch; cbn [snd]); fees_forward;
      repeat match goal with
        | H : PayoutCallbacks.refund_source _ _ = Ok _ |- _ =>
            apply refund_source_consistent in H; [|assumption]
        end;
      eauto 6 with fees.
  - repeat (branch; cbn [snd]); money_forward; try assumption.
    match goal with
    | H : PayoutCallbacks.refund_source _ _ = Ok _ |- _ =>
        apply refund_source_money in H; [assumption|assumption|exact Ha]
    end.
Qed.

Lemma bulk_loop_invariants u bulk_id uuids payouts : forall i0 st,
  Forall (fun p => (0 <= BulkPayouts.amount p)%Q) payouts ->
  fees_consistent (BulkPayouts.loop_db st) -> money_inv (BulkPayouts.loop_db st) ->
  fees_consistent
    (BulkPayouts.loop_db
       (fold_left (BulkPayouts.iteration u bulk_id uuids)
                  (combine (seq i0 (length payouts)) payouts) st))
  /\ money_inv
       (BulkPayouts.loop_db
          (fold_left (BulkPayouts.iteration u bulk_id uuids)
                     (combine (seq i0 (length payouts)) payouts) st)).
Proof.
  induction payouts as [|p ps IH]; intros i0 st Hps Hf Hm; [split; assumption|].
  inversion Hps as [|? ? Hp Hps']; subst.
  cbn [length seq combine fold_left]. apply IH; [exact Hps'| |].
  - unfold BulkPayouts.iteration. cbn [fst snd]. rewrite createPayoutInternal_response.
    cbn [BulkPayouts.loop_db]. apply createPayoutInternal_consistent. exact Hf.
  - unfold BulkPayouts.iteration. cbn [fst snd]. rewrite createPayoutInternal_response.
    cbn [BulkPayouts.loop_db]. apply createPayoutInternal_money; assumption.
Qed.

(** X27.  The fee invariant of stored transactions and the non-negativity
    of balances and recorded amounts, which the handlers of the transition
    system preserve, are preserved as well by the remaining handlers that
    write to the ledger: [retryPayout], [cancelCollection], the bank and
    M-Pesa confirmations, [createBulkPayouts] for non-negative amounts, and
    the two M-Pesa B2C callbacks. *)
Theorem remaining_handlers_preserve_invariants (db : Db) :
  fees_consistent db -> money_inv db ->
  let inv d := fees_consistent d /\ wallets_nonneg d /\ records_nonneg d in
  (forall u id, inv (snd (PayoutRetry.retryPayout db u id)))
  /\ (forall u id, inv (snd (CollectionsCancel.cancelCollection db u id)))
  /\ (forall id st, inv (snd (WebhooksController.bankConfirmation db id st)))
  /\ (forall ref, inv (snd (WebhooksController.mpesaC2BConfirmation db ref)))
  /\ (forall u uuid uuids payouts,
        Forall (fun p => (0 <= BulkPayouts.amount p)%Q) payouts ->
        inv (snd (BulkPayouts.createBulkPayouts db u uuid uuids payouts)))
  /\ (forall regex_test pattern code0 desc,
        inv (snd (PayoutCallbacks.mpesaB2CResult regex_test db pattern code0 desc))
        /\ inv (snd (PayoutCallbacks.mpesaB2CTimeout regex_test db pattern))).
Proof.
  intros Hf Hm inv. subst inv. cbv beta.
  refine (conj _ (conj _ (conj _ (conj _ (conj _ _))))).
  - intros u id. exact (retryPayout_invariants db u id Hf Hm).
  - intros u id. exact (cancelCollection_invariants db u id Hf Hm).
  - intros id st. exact (bankConfirmation_invariants db id st Hf Hm).
  - intros ref. exact (mpesaC2BConfirmation_invariants db ref Hf Hm).
  - intros u uuid uuids payouts Hps. unfold BulkPayouts.createBulkPayouts.
    destruct (Nat.ltb 100 (length payouts)); cbn [snd]; [exact (conj Hf Hm)|].
    exact (bulk_loop_invariants u ("bulk_" ++ uuid) uuids payouts 0
             (BulkPayouts.mkLoop db [] 0 0) Hps Hf Hm).
  - intros regex_test pattern code0 desc.
    exact (mpesaB2C_invariants regex_test db pattern code0 desc Hf Hm).
Qed.

Lemma remaining_handlers_preserve_invariants_witness :
  wallets_nonneg
    (snd (WebhooksController.bankConfirmation
            (snd (WalletController.fundWallet Scenario.db0 "payer" "f1" "A" 1000 None "bank"
                    (Throw "unused")))
            "fund_f1" "completed")).
Proof.
  refine (proj1 (proj2 (proj1 (proj2 (proj2
            (remaining_handlers_preserve_invariants
               (snd (WalletController.fundWallet Scenario.db0 "payer" "f1" "A" 1000 None "bank"
                       (Throw "unused"))) _ _))) "fund_f1" "completed"))).
  - apply fundWallet_consistent. exact (map_Forall_empty _).
  - apply fundWallet_money; [exact scenario_db0_money|]. vm_compute. discriminate.
Defined.
